(** * DSSATTools.run: the [Dscsm] simulation environment

    A shallow embedding of [src/DSSATTools/run.py].  The class [Dscsm] owns a
    working directory, stages the engine binary and the static [.CDE] files in
    it ([setup]), compiles the four domain objects into input files, runs the
    engine and reads its output tables ([run]), and finally removes the
    directory ([close]).

    Python objects are records, the operating system is an explicit [World]
    (a file tree, the process working directory, a trace of the mutating
    calls, a position in the random stream), exceptions are values of [exn],
    and every method is a computation in a state-and-exception monad in which
    a raised exception keeps the state changes made before it, as in Python. *)

From Stdlib Require Import PrimFloat ZArith String Ascii DecimalString.
From stdpp Require Import gmap strings list fin_maps sorting.

Local Open Scope Z_scope.

(** ** Exceptions *)

Inductive exn :=
| AssertionError (msg : string)
| AttributeError (attr : string)
| KeyError (key : string)
| ValueError (msg : string)
| TypeError (msg : string)
| FileNotFoundError (path : string)
| FileExistsError (path : string)
| IsADirectoryError (path : string)
| NotADirectoryError (path : string)
| SameFileError (src dst : string)
| CollaboratorError (msg : string).

(** ** The state-and-exception monad *)

Definition M (S A : Type) : Type := S -> (exn + A) * S.

Definition ret {S A} (a : A) : M S A := fun s => (inr a, s).
Definition raise {S A} (e : exn) : M S A := fun s => (inl e, s).
Definition bind {S A B} (c : M S A) (k : A -> M S B) : M S B :=
  fun s => match c s with
           | (inr a, s') => k a s'
           | (inl e, s') => (inl e, s')
           end.
Definition get {S} : M S S := fun s => (inr s, s).
Definition modify {S} (f : S -> S) : M S unit := fun s => (inr tt, f s).

#[global] Instance M_ret {S} : MRet (M S) := @ret S.
#[global] Instance M_bind {S} : MBind (M S) := fun A B k c => bind c k.

(** [for x in l: body x] *)
Fixpoint for_each {S A} (l : list A) (body : A -> M S unit) : M S unit :=
  match l with
  | [] => ret tt
  | x :: l' => body x ;; for_each l' body
  end.

(** [assert cond, msg] *)
Definition py_assert {S} (cond : bool) (msg : string) : M S unit :=
  if cond then ret tt else raise (AssertionError msg).

(** ** Strings and [os.path] *)

Definition sep : ascii := "/"%char.

Definition startswith_sep (s : string) : bool :=
  match s with
  | String c _ => Ascii.eqb c sep
  | EmptyString => false
  end.

Fixpoint endswith_sep (s : string) : bool :=
  match s with
  | EmptyString => false
  | String c EmptyString => Ascii.eqb c sep
  | String _ s' => endswith_sep s'
  end.

(** [os.path.join(a, b)] of [posixpath]. *)
Definition path_join (a b : string) : string :=
  if startswith_sep b then b
  else if String.eqb a "" || endswith_sep a then a +:+ b
  else a +:+ String sep b.

(** The components of a path between its separators: [split_sep s] is
    [s.split('/')]. *)
Fixpoint split_sep (s : string) : list string :=
  match s with
  | EmptyString => [""]
  | String c s' =>
      if Ascii.eqb c sep then "" :: split_sep s'
      else match split_sep s' with
           | x :: xs => String c x :: xs
           | [] => [String c ""]
           end
  end.

(** [os.path.basename(p)]: what follows the last separator. *)
Definition basename (p : string) : string := List.last (split_sep p) "".

(** [s[-n:]]: the last [n] characters, the whole string when it is shorter. *)
Definition last_chars (n : nat) (s : string) : string :=
  String.substring (String.length s - n)%nat n s.

(** [s.endswith(suffix)] *)
Definition endswith (s suffix : string) : bool :=
  (String.length suffix <=? String.length s)%nat
  && String.eqb (last_chars (String.length suffix) s) suffix.

(** ** The file tree *)

Inductive node :=
| Dir
| File (data : string) (mode : Z).

Inductive event :=
| EvMkdir (path : string)
| EvCopy (src dst : string)
| EvChmod (path : string) (mode : Z)
| EvRemove (path : string)
| EvRmtree (path : string)
| EvWrite (path : string).

Record World := mkWorld {
  files : gmap (list string) node;  (* absolute component lists; the root is implicit *)
  pwd : list string;                (* the working directory of the process *)
  trace : list event;               (* the mutating calls that succeeded, oldest first *)
  draws : nat                       (* how many random numbers were drawn *)
}.

Definition set_files (f : gmap (list string) node -> gmap (list string) node)
    (w : World) : World :=
  mkWorld (f (files w)) (pwd w) (trace w) (draws w).
Definition log (e : event) (w : World) : World :=
  mkWorld (files w) (pwd w) (trace w ++ [e]) (draws w).
Definition tick (n : nat) (w : World) : World :=
  mkWorld (files w) (pwd w) (trace w) (draws w + n)%nat.

(** One component of a path applied to the directory reached so far. *)
Definition walk (acc : list string) (c : string) : list string :=
  if String.eqb c "" || String.eqb c "." then acc
  else if String.eqb c ".." then removelast acc
  else acc ++ [c].

(** The place a path names: its components walked from the root or from the
    working directory. *)
Definition resolve (cwd : list string) (p : string) : list string :=
  fold_left walk (split_sep p) (if startswith_sep p then [] else cwd).

Definition node_at (fs : gmap (list string) node) (k : list string) : option node :=
  if decide (k = []) then Some Dir else fs !! k.

(** What a path string names in a world; the empty path names nothing. *)
Definition stat (w : World) (p : string) : option node :=
  if String.eqb p "" then None else node_at (files w) (resolve (pwd w) p).

(** The name under which [k'] is an entry of directory [k], if it is one. *)
Definition child_of (k k' : list string) : option string :=
  if decide (length k' = S (length k) /\ take (length k) k' = k)
  then last k' else None.

Definition children (fs : gmap (list string) node) (k : list string) : list string :=
  omap (child_of k) (map_to_list fs).*1.

Abbreviation OS := (M World).

Section OperatingSystem.

(** The mode a newly created file gets (0o666 masked by the umask). *)
Variable default_mode : Z.

(** [os.path.exists(p)] *)
Definition path_exists (p : string) : OS bool :=
  w ← get; ret (bool_decide (is_Some (stat w p))).

(** The place a new entry for [p] goes, when its parent directory exists. *)
Definition parent_dir (w : World) (p : string) : exn + list string :=
  let k := resolve (pwd w) p in
  match node_at (files w) (removelast k) with
  | Some Dir => inr k
  | Some (File _ _) => inl (NotADirectoryError p)
  | None => inl (FileNotFoundError p)
  end.

(** [os.mkdir(p)] *)
Definition mkdir (p : string) : OS unit :=
  w ← get;
  match stat w p with
  | Some _ => raise (FileExistsError p)
  | None =>
      if String.eqb p "" then raise (FileNotFoundError p)
      else match parent_dir w p with
           | inr k => modify (set_files <[k := Dir]>) ;; modify (log (EvMkdir p))
           | inl e => raise e
           end
  end.

(** Opening [p] for writing and closing it with [data] written. *)
Definition store (p data : string) : OS unit :=
  w ← get;
  if String.eqb p "" then raise (FileNotFoundError p)
  else match stat w p with
       | Some Dir => raise (IsADirectoryError p)
       | Some (File _ m) =>
           modify (set_files <[resolve (pwd w) p := File data m]>)
       | None =>
           match parent_dir w p with
           | inr k => modify (set_files <[k := File data default_mode]>)
           | inl e => raise e
           end
       end.

(** [with open(p, 'w') as f: f.write(data)] *)
Definition write_text (p data : string) : OS unit :=
  store p data ;; modify (log (EvWrite p)).

(** [shutil.copyfile(src, dst)] *)
Definition copyfile (src dst : string) : OS unit :=
  w ← get;
  match stat w src with
  | None => raise (FileNotFoundError src)
  | Some n =>
      if bool_decide (is_Some (stat w dst)
                      /\ resolve (pwd w) src = resolve (pwd w) dst)
      then raise (SameFileError src dst)
      else match n with
           | Dir => raise (IsADirectoryError src)
           | File data _ => store dst data ;; modify (log (EvCopy src dst))
           end
  end.

(** [os.chmod(p, mode)]; the mode of a directory is not tracked. *)
Definition chmod (p : string) (mode : Z) : OS unit :=
  w ← get;
  match stat w p with
  | None => raise (FileNotFoundError p)
  | Some Dir => modify (log (EvChmod p mode))
  | Some (File data _) =>
      modify (set_files <[resolve (pwd w) p := File data mode]>) ;;
      modify (log (EvChmod p mode))
  end.

(** [os.listdir(p)] *)
Definition listdir (p : string) : OS (list string) :=
  w ← get;
  match stat w p with
  | None => raise (FileNotFoundError p)
  | Some (File _ _) => raise (NotADirectoryError p)
  | Some Dir => ret (children (files w) (resolve (pwd w) p))
  end.

(** [os.remove(p)] *)
Definition remove (p : string) : OS unit :=
  w ← get;
  match stat w p with
  | None => raise (FileNotFoundError p)
  | Some Dir => raise (IsADirectoryError p)
  | Some (File _ _) =>
      modify (set_files (delete (resolve (pwd w) p))) ;;
      modify (log (EvRemove p))
  end.

(** [shutil.rmtree(p)] *)
Definition rmtree (p : string) : OS unit :=
  w ← get;
  match stat w p with
  | None => raise (FileNotFoundError p)
  | Some (File _ _) => raise (NotADirectoryError p)
  | Some Dir =>
      modify (set_files
                (filter (fun kv => ~ resolve (pwd w) p `prefix_of` kv.1))) ;;
      modify (log (EvRmtree p))
  end.

(** Reading the whole of a file. *)
Definition read_text (p : string) : OS string :=
  w ← get;
  match stat w p with
  | None => raise (FileNotFoundError p)
  | Some Dir => raise (IsADirectoryError p)
  | Some (File data _) => ret data
  end.

End OperatingSystem.

(** ** Calendar dates and their text forms *)

Record date := mkDate { year : Z; month : Z; day : Z }.

Definition is_leap (y : Z) : bool :=
  (y mod 4 =? 0) && (negb (y mod 100 =? 0) || (y mod 400 =? 0)).

Definition days_in_month (y m : Z) : Z :=
  if m =? 2 then (if is_leap y then 29 else 28)
  else if (m =? 4) || (m =? 6) || (m =? 9) || (m =? 11) then 30
  else 31.

Definition days_in_year (y : Z) : Z := if is_leap y then 366 else 365.

(** The days of the months of [y] before month [m]. *)
Definition days_before_month (y m : Z) : Z :=
  fold_right Z.add 0 (map (days_in_month y) (map Z.of_nat (seq 1 (Z.to_nat (m - 1))))).

(** [d.timetuple().tm_yday]: the day of the year, from 1. *)
Definition day_of_year (d : date) : Z := days_before_month (year d) (month d) + day d.

(** The month and day of the [n]-th day of year [y], looking from month [m]. *)
Fixpoint month_day (fuel : nat) (y m n : Z) : Z * Z :=
  match fuel with
  | O => (m, n)
  | S fuel' =>
      if n <=? days_in_month y m then (m, n)
      else month_day fuel' y (m + 1) (n - days_in_month y m)
  end.

(** [date.fromordinal(date(y, 1, 1).toordinal() + j - 1)] for [1 <= j <= 366]:
    the [j]-th day counted from the first of January of [y]; day 366 of a
    year of 365 days is the first of January of the next year. *)
Definition date_of_julian (y j : Z) : date :=
  if j <=? days_in_year y then
    let md := month_day 11 y 1 j in mkDate y md.1 md.2
  else
    let md := month_day 11 (y + 1) 1 (j - days_in_year y) in mkDate (y + 1) md.1 md.2.

(** The decimal digits of a natural number. *)
Definition decimal (z : Z) : string := NilZero.string_of_uint (N.to_uint (Z.to_N z)).

Fixpoint zeros (n : nat) : string :=
  match n with
  | O => ""
  | S n' => String "0" (zeros n')
  end.

(** [s.zfill(w)] for a string of digits. *)
Definition zfill (w : nat) (s : string) : string := zeros (w - String.length s) +:+ s.

(** [f'{x:05d}']: decimal, zero-padded to five characters, the sign first. *)
Definition format_05d (x : Z) : string :=
  if x <? 0 then String "-" (zfill 4 (decimal (- x))) else zfill 5 (decimal x).

(** [d.strftime('%y%m')] and [d.strftime('%y%j')] *)
Definition strftime_ym (d : date) : string :=
  zfill 2 (decimal (year d mod 100)) +:+ zfill 2 (decimal (month d)).
Definition strftime_yj (d : date) : string :=
  zfill 2 (decimal (year d mod 100)) +:+ zfill 3 (decimal (day_of_year d)).

Definition digit_value (c : ascii) : option Z :=
  let n := Z.of_N (N_of_ascii c) in
  if (48 <=? n) && (n <=? 57) then Some (n - 48) else None.

Definition in_range (lo hi : Z) (d : Z) : bool := (lo <=? d) && (d <=? hi).

(** The directive [%j] of [strptime]: the alternatives
    [36[0-6]|3[0-5]\d|[1-2]\d\d|0[1-9]\d|00[1-9]|[1-9]\d|0[1-9]|[1-9]]
    tried in this order at the head of [s]; the value matched and the rest. *)
Definition match_j (s : string) : option (Z * string) :=
  let three :=
    match s with
    | String a (String b (String c rest)) =>
        match digit_value a, digit_value b, digit_value c with
        | Some x, Some y, Some z =>
            if (x =? 3) && (y =? 6) && in_range 0 6 z
               || (x =? 3) && in_range 0 5 y
               || in_range 1 2 x
               || (x =? 0) && in_range 1 9 y
               || (x =? 0) && (y =? 0) && in_range 1 9 z
            then Some (100 * x + 10 * y + z, rest) else None
        | _, _, _ => None
        end
    | _ => None
    end in
  let two :=
    match s with
    | String a (String b rest) =>
        match digit_value a, digit_value b with
        | Some x, Some y =>
            if in_range 1 9 x || (x =? 0) && in_range 1 9 y
            then Some (10 * x + y, rest) else None
        | _, _ => None
        end
    | _ => None
    end in
  let one :=
    match s with
    | String a rest =>
        match digit_value a with
        | Some x => if in_range 1 9 x then Some (x, rest) else None
        | None => None
        end
    | _ => None
    end in
  match three, two with
  | Some r, _ => Some r
  | None, Some r => Some r
  | None, None => one
  end.

(** Parsing one token with the format ['%y%j']: two digits of year ([\d\d],
    00-68 in century 2000, 69-99 in century 1900), then the day of the year;
    the whole token must be used up. *)
Definition strptime_yj (s : string) : exn + date :=
  match s with
  | String a (String b rest) =>
      match digit_value a, digit_value b, match_j rest with
      | Some x, Some y, Some (j, EmptyString) =>
          let yy := 10 * x + y in
          inr (date_of_julian (if yy <=? 68 then yy + 2000 else yy + 1900) j)
      | Some _, Some _, Some (_, String _ _) =>
          inl (ValueError ("unconverted data remains: " +:+ s))
      | _, _, _ => inl (ValueError ("time data " +:+ s +:+ " does not match format %y%j"))
      end
  | _ => inl (ValueError ("time data " +:+ s +:+ " does not match format %y%j"))
  end.

(** ** Tables *)

(** A 64-bit signed integer, as the integer columns of a table hold. *)
Definition wrap64 (z : Z) : Z := (z + 2 ^ 63) mod 2 ^ 64 - 2 ^ 63.

Inductive column :=
| IntCol (xs : list Z)
| FloatCol (xs : list float)
| ObjCol (xs : list string).

Inductive frame_index :=
| RangeIndex (n : nat)
| DatetimeIndex (ds : list date).

(** A [pandas.DataFrame] as [read_csv] returns it: named columns and an
    index. *)
Record DataFrame := mkFrame {
  df_columns : list (string * column);
  df_index : frame_index
}.

Definition column_named (name : string) (df : DataFrame) : option column :=
  snd <$> List.find (fun nc => String.eqb nc.1 name) (df_columns df).

(** [(a + b).map(lambda x: f'{x:05d}')]: integer columns add with wrap-around
    and format; a column of floats or of strings has no format [d]. *)
Definition add_and_format (a b : column) : exn + list string :=
  match a, b with
  | IntCol xs, IntCol ys =>
      inr (zip_with (fun x y => format_05d (wrap64 (x + y))) xs ys)
  | ObjCol _, IntCol _ | IntCol _, ObjCol _
  | ObjCol _, FloatCol _ | FloatCol _, ObjCol _ =>
      inl (TypeError "unsupported operand types for +")
  | _, _ => inl (ValueError "Unknown format code 'd'")
  end.

(** [pd.to_datetime(tokens, format='%y%j')] *)
Fixpoint to_datetime_yj (tokens : list string) : exn + list date :=
  match tokens with
  | [] => inr []
  | t :: ts =>
      match strptime_yj t with
      | inl e => inl e
      | inr d =>
          match to_datetime_yj ts with
          | inl e => inl e
          | inr ds => inr (d :: ds)
          end
      end
  end.

(** The date index of an output table, lines 253-257 of [run]:
    [if all(('@YEAR' in df.columns, 'DOY' in df.columns)): df.index = ...] *)
Definition reconstruct_index (df : DataFrame) : exn + DataFrame :=
  match column_named "@YEAR" df, column_named "DOY" df with
  | Some yr, Some doy =>
      match add_and_format yr doy with
      | inl e => inl e
      | inr tokens =>
          match to_datetime_yj tokens with
          | inl e => inl e
          | inr ds => inr (mkFrame (df_columns df) (DatetimeIndex ds))
          end
      end
  | _, _ => inr df
  end.

(** ** The domain objects *)

(** Modelled from the spec: [TabularSubsection] of [DSSATTools.base.sections]
    is not part of the sources; the spec calls the value built in [run] an
    ordered table keyed by layer depth with a water column, an ammonium column
    and a nitrate column.  Its four columns, after the source's names. *)
Record Table := mkTable {
  ICBL : list Z;
  SH2O : list float;
  SNH4 : list float;
  SNO3 : list float
}.

Inductive pyval :=
| VNone
| VStr (s : string)
| VInt (z : Z)
| VFloat (f : float)
| VTable (t : Table).

(** [bool(v)]; a table has no truth value. *)
Definition truthy (v : pyval) : exn + bool :=
  match v with
  | VNone => inr false
  | VStr s => inr (negb (String.eqb s ""))
  | VInt z => inr (negb (z =? 0))
  | VFloat f => inr (negb (PrimFloat.eqb f 0))
  | VTable _ => inl (ValueError "The truth value of a DataFrame is ambiguous")
  end.

(** [not v] *)
Definition py_not (v : pyval) : exn + bool :=
  match truthy v with
  | inr b => inr (negb b)
  | inl e => inl e
  end.

Record Layer := mkLayer { SLLL : float; SDUL : float }.

(** [layers] is the dictionary of the profile in the order of its items. *)
Record SoilProfile := mkSoil {
  layers : list (Z * Layer);
  total_depth : Z;
  soil_id : string
}.

Record WeatherStation := mkWeather { INSI : string }.

Record Crop := mkCrop {
  CODE : string;
  SMODEL : string;
  crop_cultivar : gmap string (gmap string pyval)
}.

Record Management := mkManagement {
  cultivar : string;
  sim_start : date;
  initial_swc : float;
  cultivars : gmap string pyval;
  fields : gmap string pyval;
  initial_conditions : gmap string pyval;
  simulation_controls : gmap string pyval
}.

Definition set_cultivars (k : string) (v : pyval) (m : Management) : Management :=
  mkManagement (cultivar m) (sim_start m) (initial_swc m) (<[k := v]> (cultivars m))
    (fields m) (initial_conditions m) (simulation_controls m).
Definition set_fields (k : string) (v : pyval) (m : Management) : Management :=
  mkManagement (cultivar m) (sim_start m) (initial_swc m) (cultivars m)
    (<[k := v]> (fields m)) (initial_conditions m) (simulation_controls m).
Definition set_initial_conditions (k : string) (v : pyval) (m : Management) : Management :=
  mkManagement (cultivar m) (sim_start m) (initial_swc m) (cultivars m)
    (fields m) (<[k := v]> (initial_conditions m)) (simulation_controls m).
Definition set_simulation_controls (k : string) (v : pyval) (m : Management) : Management :=
  mkManagement (cultivar m) (sim_start m) (initial_swc m) (cultivars m)
    (fields m) (initial_conditions m) (<[k := v]> (simulation_controls m)).

(** The [write] method every domain object has. *)
Class Writes (A : Type) := write : A -> string -> OS unit.

(** ** The initial-conditions table, lines 199-210 of [run] *)

(** [layer['SLLL'] + management.initial_swc * (layer['SDUL'] - layer['SLLL'])] *)
Definition layer_water (fraction : float) (layer : Layer) : float :=
  (SLLL layer + fraction * (SDUL layer - SLLL layer))%float.

(** The list [initial_swc] the loop over [soil.layers.items()] appends to. *)
Definition initial_swc_rows (soil : SoilProfile) (fraction : float) : list (Z * float) :=
  map (fun dl => (dl.1, layer_water fraction dl.2)) (layers soil).

Definition by_ICBL (r1 r2 : Z * float) : Prop := r1.1 <= r2.1.

#[global] Instance by_ICBL_dec : RelDecision by_ICBL :=
  fun r1 r2 => decide (r1.1 <= r2.1).

(** [table.sort_values(by='ICBL').reset_index(drop=True)]; the depths are the
    keys of a dictionary, so no two rows compare equal. *)
Definition sort_values_ICBL (rows : list (Z * float)) : list (Z * float) :=
  merge_sort by_ICBL rows.

(** [table[name] = values]: the values must be as many as the rows. *)
Definition column_of_length (n : nat) (values : list float) : exn + list float :=
  if (length values =? n)%nat then inr values
  else inl (ValueError "Length of values does not match length of index").

Definition initial_conditions_table (soil : SoilProfile) (fraction : float) : exn + Table :=
  let table := sort_values_ICBL (initial_swc_rows soil fraction) in
  let len := length table in
  match column_of_length len (repeat 0%float len) with
  | inl e => inl e
  | inr snh4 =>
      match column_of_length len
              ([1%float] ++ repeat 0%float (Z.to_nat (Z.of_nat len - 1))) with
      | inl e => inl e
      | inr sno3 => inr (mkTable table.*1 table.*2 snh4 sno3)
      end
  end.

(** ** The simulation environment *)

Record Dscsm := mkDscsm {
  _STATIC_PATH : string;
  _BIN_PATH : string;
  _STD_PATH : string;
  _CRD_PATH : string;
  _SLD_PATH : string;
  _SETUP : bool;
  _input : gmap string pyval;
  output : gmap string DataFrame;
  OUTPUT_LIST : list string;
  _RUN_PATH : option string        (* unset until [setup] assigns it *)
}.

Definition OUTPUTS : list string := ["PlantGro"].

(** [Dscsm.__init__], with [BASE_PATH] the directory of the package. *)
Definition init (BASE_PATH : string) : Dscsm :=
  let STATIC_PATH := path_join BASE_PATH "static" in
  mkDscsm STATIC_PATH
    (path_join (path_join STATIC_PATH "bin") "dscsm048")
    (path_join STATIC_PATH "StandardData")
    (path_join STATIC_PATH "Genotype")
    (path_join STATIC_PATH "Soil")
    false
    (list_to_map [("crop", VNone); ("wheater", VNone); ("soil", VNone);
                  ("management", VNone)])
    ∅
    OUTPUTS
    None.

(** The objects a call can change: the environment, the management plan it is
    handed, and the operating system. *)
Record Heap := mkHeap {
  self : Dscsm;
  management : Management;
  os : World
}.

Definition set_self (f : Dscsm -> Dscsm) (h : Heap) : Heap :=
  mkHeap (f (self h)) (management h) (os h).
Definition set_management (f : Management -> Management) (h : Heap) : Heap :=
  mkHeap (self h) (f (management h)) (os h).

Definition with_RUN_PATH (p : string) (d : Dscsm) : Dscsm :=
  mkDscsm (_STATIC_PATH d) (_BIN_PATH d) (_STD_PATH d) (_CRD_PATH d) (_SLD_PATH d)
    (_SETUP d) (_input d) (output d) (OUTPUT_LIST d) (Some p).
Definition with_SETUP (b : bool) (d : Dscsm) : Dscsm :=
  mkDscsm (_STATIC_PATH d) (_BIN_PATH d) (_STD_PATH d) (_CRD_PATH d) (_SLD_PATH d)
    b (_input d) (output d) (OUTPUT_LIST d) (_RUN_PATH d).
Definition with_output (name : string) (df : DataFrame) (d : Dscsm) : Dscsm :=
  mkDscsm (_STATIC_PATH d) (_BIN_PATH d) (_STD_PATH d) (_CRD_PATH d) (_SLD_PATH d)
    (_SETUP d) (_input d) (<[name := df]> (output d)) (OUTPUT_LIST d) (_RUN_PATH d).

(** A call of the operating system made from a method. *)
Definition sys {A} (c : OS A) : M Heap A :=
  fun h => let r := c (os h) in (r.1, mkHeap (self h) (management h) r.2).

(** Reading [self._RUN_PATH]. *)
Definition RUN_PATH : M Heap string :=
  h ← get;
  match _RUN_PATH (self h) with
  | Some p => ret p
  | None => raise (AttributeError "_RUN_PATH")
  end.

(** [d[k]] on a dictionary with string keys. *)
Definition getitem {S A} (d : gmap string A) (k : string) : M S A :=
  match d !! k with
  | Some v => ret v
  | None => raise (KeyError k)
  end.

(** Lifting a result computed without state. *)
Definition pure {S A} (r : exn + A) : M S A :=
  match r with
  | inr a => ret a
  | inl e => raise e
  end.

Definition ascii_lowercase : list ascii := list_ascii_of_string "abcdefghijklmnopqrstuvwxyz".

Definition nl : string := String (ascii_of_nat 10) "".

Definition SETUP_MESSAGE : string :=
  "You must initialize the simulation environment by" +:+ " running the setup() method".

(** The message of the assertion on the engine's return code. *)
Definition EXECUTION_MESSAGE (run_path : string) : string :=
  "DSSAT execution Failed, check " +:+ path_join run_path "ERROR.OUT" +:+ " file for a"
  +:+ " detailed report".

(** The message of the assertion on an output file. *)
Definition MISSING_MESSAGE (file run_path : string) : string :=
  file +:+ ".OUT" +:+ " does not exist in " +:+ run_path.

(** [i[-3:] == 'OUT'] *)
Definition is_output (i : string) : bool := String.eqb (last_chars 3 i) "OUT".

Section Environment.

(** What the class takes from its surroundings: the mode of new files, the
    directory [tempfile.gettempdir()] returns, the stream of random
    indices, the [write] methods of the four domain objects, the engine
    behind [subprocess.run] (its arguments, its working directory, its
    return code) and
    [pd.read_csv(_, skiprows=5, sep=' ', skipinitialspace=True)] on the
    text of a file. *)
Variable default_mode : Z.
Variable TMP_BASE : string.
Variable rand_index : nat -> nat.
Context `{!Writes Management, !Writes Crop, !Writes SoilProfile,
          !Writes WeatherStation}.
Variable subprocess_run : list string -> string -> OS Z.
Variable read_csv : string -> exn + DataFrame.

(** [''.join(random.choices(string.ascii_lowercase, k=k))] *)
Definition random_name (k : nat) : OS string :=
  w ← get;
  modify (tick k);;
  ret (string_of_list_ascii
         (map (fun i => nth (rand_index (draws w + i) mod 26)%nat ascii_lowercase "a"%char)
              (seq 0 k))).

(** [if cwd:] *)
Definition given (cwd : option string) : option string :=
  match cwd with
  | Some p => if String.eqb p "" then None else Some p
  | None => None
  end.

(** Lines 123-133 of [setup]: the working directory. *)
Definition make_run_path (cwd : option string) : M Heap unit :=
  match given cwd with
  | Some p =>
      modify (set_self (with_RUN_PATH p));;
      run_path ← RUN_PATH;
      present ← sys (path_exists run_path);
      if negb present then sys (mkdir run_path) else ret tt
  | None =>
      name ← sys (random_name 8);
      modify (set_self (with_RUN_PATH (path_join TMP_BASE name)));;
      run_path ← RUN_PATH;
      sys (mkdir run_path)
  end.

(** One turn of the loop over [os.listdir(self._STATIC_PATH)]. *)
Definition copy_static (static_path run_path file : string) : OS unit :=
  if endswith file ".CDE" then
    copyfile default_mode (path_join static_path file) (path_join run_path file)
  else ret tt.

(** Lines 135-152 of [setup]: move files. *)
Definition move_files : M Heap unit :=
  h ← get;
  run_path ← RUN_PATH;
  let binary := path_join run_path (basename (_BIN_PATH (self h))) in
  present ← sys (path_exists binary);
  (if negb present then
     sys (copyfile default_mode (_BIN_PATH (self h)) binary);;
     sys (chmod binary 111)
   else ret tt);;
  names ← sys (listdir (_STATIC_PATH (self h)));
  for_each names (fun file => sys (copy_static (_STATIC_PATH (self h)) run_path file)).

(** [Dscsm.setup(cwd, overwrite)] *)
Definition setup (cwd : option string) (overwrite : bool) : M Heap unit :=
  make_run_path cwd;;
  move_files;;
  modify (set_self (with_SETUP true)).

(** Lines 180-183: remove previous outputs. *)
Definition remove_previous_outputs : M Heap unit :=
  run_path ← RUN_PATH;
  names ← sys (listdir run_path);
  let OUTPUT_FILES := filter (fun i => is_output i = true) names in
  for_each OUTPUT_FILES (fun file => sys (remove (path_join run_path file))).

(** Lines 184-213: fill the fields of the management plan. *)
Definition fill_management (soil : SoilProfile) (weather : WeatherStation)
    (crop : Crop) : M Heap unit :=
  modify (set_management (set_cultivars "CR" (VStr (CODE crop))));;
  h ← get;
  entry ← getitem (crop_cultivar crop) (cultivar (management h));
  name ← getitem entry "VRNAME..........";
  modify (set_management (set_cultivars "CNAME" name));;
  modify (set_management
            (set_fields "WSTA...."
               (VStr (INSI weather +:+ strftime_ym (sim_start (management h))))));;
  modify (set_management (set_fields "SLDP" (VInt (total_depth soil))));;
  modify (set_management (set_fields "ID_SOIL" (VStr (soil_id soil))));;
  modify (set_management (set_initial_conditions "PCR" (VStr (CODE crop))));;
  h ← get;
  icdat ← getitem (initial_conditions (management h)) "ICDAT";
  unset ← pure (py_not icdat);
  (if unset : bool then
     modify (set_management
               (set_initial_conditions "ICDAT"
                  (VStr (strftime_yj (sim_start (management h))))))
   else ret tt);;
  table ← pure (initial_conditions_table soil (initial_swc (management h)));
  modify (set_management (set_initial_conditions "table" (VTable table)));;
  modify (set_management (set_simulation_controls "SMODEL" (VStr (SMODEL crop)))).

(** Lines 215-231: the input files and the control file; the result is
    [management_filename]. *)
Definition write_inputs (soil : SoilProfile) (weather : WeatherStation)
    (crop : Crop) : M Heap string :=
  h ← get;
  run_path ← RUN_PATH;
  let management_filename :=
    path_join run_path
      (INSI weather +:+ strftime_ym (sim_start (management h))
       +:+ "." +:+ CODE crop +:+ "X") in
  sys (write (management h) management_filename);;
  sys (write crop run_path);;
  sys (write soil (path_join run_path "SOIL.SOL"));;
  let wth_path := path_join run_path "Weather" in
  sys (write weather wth_path);;
  sys (write_text default_mode (path_join run_path "DSSATPRO.L48")
         ("WED    " +:+ wth_path +:+ nl
          +:+ "MMZ    " +:+ run_path +:+ " dscsm048 MZCER048" +:+ nl
          +:+ "CRD    " +:+ _CRD_PATH (self h) +:+ nl
          +:+ "PSD    " +:+ path_join (_STATIC_PATH (self h)) "Pest" +:+ nl
          +:+ "SLD    " +:+ _SLD_PATH (self h) +:+ nl
          +:+ "STD    " +:+ _STD_PATH (self h) +:+ nl));;
  ret management_filename.

(** Lines 233-241: run the engine and check its return code. *)
Definition execute (management_filename : string) : M Heap unit :=
  h ← get;
  run_path ← RUN_PATH;
  returncode ← sys (subprocess_run
                      [_BIN_PATH (self h); "C"; basename management_filename; "1"]
                      run_path);
  py_assert (returncode =? 0) (EXECUTION_MESSAGE run_path).

(** The body of the loop over [self.OUTPUT_LIST], lines 247-258. *)
Definition read_output (OUTPUT_FILES : list string) (file : string) : M Heap unit :=
  run_path ← RUN_PATH;
  py_assert (bool_decide (file +:+ ".OUT" ∈ OUTPUT_FILES))
            (MISSING_MESSAGE file run_path);;
  text ← sys (read_text (path_join run_path (file +:+ ".OUT")));
  df ← pure (read_csv text);
  df ← pure (reconstruct_index df);
  modify (set_self (with_output file df)).

(** Lines 244-258: read the outputs. *)
Definition read_outputs : M Heap unit :=
  run_path ← RUN_PATH;
  names ← sys (listdir run_path);
  let OUTPUT_FILES := filter (fun i => is_output i = true) names in
  h ← get;
  for_each (OUTPUT_LIST (self h)) (read_output OUTPUT_FILES).

(** What [run] does once the previous outputs are removed. *)
Definition compile_execute_read (soil : SoilProfile) (weather : WeatherStation)
    (crop : Crop) : M Heap unit :=
  fill_management soil weather crop;;
  management_filename ← write_inputs soil weather crop;
  execute management_filename;;
  read_outputs.

(** [Dscsm.run(soil, weather, crop, management)]; the management plan is
    the one of the heap. *)
Definition run (soil : SoilProfile) (weather : WeatherStation) (crop : Crop)
    : M Heap unit :=
  h ← get;
  py_assert (_SETUP (self h)) SETUP_MESSAGE;;
  remove_previous_outputs;;
  compile_execute_read soil weather crop.

(** [Dscsm.close()] *)
Definition close : M Heap unit :=
  run_path ← RUN_PATH;
  sys (rmtree run_path).

End Environment.

(** ** Well-formed file trees *)

Fixpoint has_sep (s : string) : bool :=
  match s with
  | EmptyString => false
  | String c s' => Ascii.eqb c sep || has_sep s'
  end.

(** The names a directory entry can have. *)
Definition name_ok (n : string) : bool :=
  negb (String.eqb n "") && negb (String.eqb n ".") && negb (String.eqb n "..")
  && negb (has_sep n).

Definition key_ok (k : list string) : Prop := Forall (fun n => name_ok n = true) k.

(** Every entry of the tree is reached by proper names. *)
Definition wf_files (fs : gmap (list string) node) : Prop :=
  map_Forall (fun k _ => key_ok k) fs.

Definition wf_world (w : World) : Prop := key_ok (pwd w) /\ wf_files (files w).

#[global] Instance key_ok_dec (k : list string) : Decision (key_ok k) :=
  ltac:(unfold key_ok; apply _).
#[global] Instance wf_files_dec (fs : gmap (list string) node) : Decision (wf_files fs) :=
  ltac:(unfold wf_files; apply _).
#[global] Instance wf_world_dec (w : World) : Decision (wf_world w) :=
  ltac:(unfold wf_world; apply _).

(** ** Histories of calls *)

Inductive call :=
| CallSetup (cwd : option string) (overwrite : bool)
| CallRun (soil : SoilProfile) (weather : WeatherStation) (crop : Crop)
| CallClose.

Definition is_setup (c : call) : bool :=
  match c with
  | CallSetup _ _ => true
  | _ => false
  end.

Definition returned {A} (r : exn + A) : bool :=
  match r with
  | inr _ => true
  | inl _ => false
  end.

Section History.

Variable default_mode : Z.
Variable TMP_BASE : string.
Variable rand_index : nat -> nat.
Context `{!Writes Management, !Writes Crop, !Writes SoilProfile,
          !Writes WeatherStation}.
Variable subprocess_run : list string -> string -> OS Z.
Variable read_csv : string -> exn + DataFrame.

Definition perform (c : call) : M Heap unit :=
  match c with
  | CallSetup cwd overwrite => setup default_mode TMP_BASE rand_index cwd overwrite
  | CallRun soil weather crop =>
      run default_mode subprocess_run read_csv soil weather crop
  | CallClose => close
  end.

(** The calls of [cs] made one after the other, whatever each one raises:
    whether some [setup] among them returned, and the heap they leave. *)
Fixpoint history (cs : list call) (h : Heap) : bool * Heap :=
  match cs with
  | [] => (false, h)
  | c :: cs' =>
      let r := perform c h in
      let rest := history cs' r.2 in
      (is_setup c && returned r.1 || rest.1, rest.2)
  end.

End History.

(** ** A small world to run the definitions in *)

Module Sample.

Definition mode : Z := 420.

Definition write_management : Writes Management :=
  fun _ p => write_text mode p "*EXP.DETAILS".
Definition write_crop : Writes Crop :=
  fun c p => write_text mode (path_join p (CODE c +:+ "CER048.CUL")) "*CULTIVARS".
Definition write_soil : Writes SoilProfile :=
  fun _ p => write_text mode p "*SOILS".
Definition write_weather : Writes WeatherStation :=
  fun w p =>
    present ← path_exists p;
    (if negb present then mkdir p else ret tt);;
    write_text mode (path_join p (INSI w +:+ "2301.WTH")) "*WEATHER".

(** An engine that writes one output file and exits with [rc]. *)
Definition engine (rc : Z) (argv : list string) (cwd : string) : OS Z :=
  write_text mode (path_join cwd "PlantGro.OUT") "@YEAR DOY";;
  ret rc.

(** An engine that writes nothing. *)
Definition idle (argv : list string) (cwd : string) : OS Z := ret 0.

Definition frame : DataFrame :=
  mkFrame [("@YEAR", IntCol [23]); ("DOY", IntCol [45])] (RangeIndex 1).
Definition parse (text : string) : exn + DataFrame := inr frame.

Definition disk : gmap (list string) node :=
  list_to_map
    [ (["tmp"], Dir); (["pkg"], Dir); (["pkg"; "static"], Dir);
      (["pkg"; "static"; "bin"], Dir);
      (["pkg"; "static"; "bin"; "dscsm048"], File "ELF" 493);
      (["pkg"; "static"; "DETAIL.CDE"], File "codes" 420);
      (["pkg"; "static"; "README"], File "text" 420) ].

Definition world : World := mkWorld disk [] [] 0.

Definition soil : SoilProfile :=
  mkSoil [(30, mkLayer 0.25 0.5); (5, mkLayer 0.125 0.375)] 30 "IBMZ910214".
Definition weather : WeatherStation := mkWeather "DPOE".
Definition crop : Crop :=
  mkCrop "MZ" "MZCER"
    {[ "IB0001" := {[ "VRNAME.........." := VStr "PIO 3382" ]} ]}.
Definition plan : Management :=
  mkManagement "IB0001" (mkDate 2023 1 1) 0.5 ∅ ∅ {[ "ICDAT" := VNone ]} ∅.

(** A fresh environment. *)
Definition heap : Heap := mkHeap (init "/pkg") plan world.

Definition setup (cwd : option string) : M Heap unit :=
  setup mode "/tmp" (fun n => n) cwd false.
Definition run (rc : Z) : M Heap unit :=
  @run mode write_management write_crop write_soil write_weather
       (engine rc) parse soil weather crop.

Definition close : M Heap unit := close.

(** Calls made on a fresh environment, none of them a [setup] that
    returns: the directory above [/nowhere/ws] does not exist. *)
Definition calls : list call :=
  [CallClose; CallSetup (Some "/nowhere/ws") false; CallRun soil weather crop].
Definition history (cs : list call) (h : Heap) : bool * Heap :=
  @history mode "/tmp" (fun n => n) write_management write_crop write_soil
           write_weather (engine 0) parse cs h.

(** The environment after [setup('/tmp/ws')]. *)
Definition staged : Heap := (setup (Some "/tmp/ws") heap).2.

(** The environment after [setup('/tmp/ws')] and a run. *)
Definition ran : Heap := (run 0 staged).2.


(** The heap the calls [calls] leave. *)
Definition called : Heap := (history calls heap).2.

(** The staged environment closed. *)
Definition closed : Heap := (close staged).2.

(** The states a run on the staged environment goes through up to the
    engine, and the world an engine that exits with 3 leaves. *)
Definition cleaned : Heap := (remove_previous_outputs staged).2.
Definition filled : Heap := (fill_management soil weather crop cleaned).2.
Definition written : Heap :=
  (@write_inputs mode write_management write_crop write_soil write_weather
                 soil weather crop filled).2.
Definition failed : World :=
  (engine 3 [_BIN_PATH (self written); "C"; "DPOE2301.MZX"; "1"] "/tmp/ws"
          (os written)).2.

(** The fresh environment after [setup()] without a path. *)
Definition temporary : Heap := (setup None heap).2.


(** A crop without the cultivar of the plan. *)
Definition unknown : Crop := mkCrop "MZ" "MZCER" ∅.

(** The staged environment with a directory named [OLD.OUT] in its working
    directory. *)
Definition cluttered : Heap :=
  mkHeap (self staged) (management staged)
         (set_files <[["tmp"; "ws"; "OLD.OUT"] := Dir]> (os staged)).

(** A table as the engine writes it, with the year in four digits. *)
Definition late : DataFrame :=
  mkFrame [("@YEAR", IntCol [2023]); ("DOY", IntCol [350])] (RangeIndex 1).

End Sample.

(** ** Frames *)

(** [keeps R c]: the state [c] leaves is related by [R] to the one it found,
    whether [c] returns or raises. *)
Definition keeps {S A} (R : relation S) (c : M S A) : Prop := forall s, R s (c s).2.

(** The part [f] of the heap is left as it was. *)
Definition unchanged {B} (f : Heap -> B) : relation Heap := fun h h' => f h' = f h.

(** The attributes of the environment other than [output]. *)
Definition settings (h : Heap) :=
  (_STATIC_PATH (self h), _BIN_PATH (self h), _STD_PATH (self h), _CRD_PATH (self h),
   _SLD_PATH (self h), _SETUP (self h), _input (self h), OUTPUT_LIST (self h),
   _RUN_PATH (self h)).

(** [extends w w']: from [w] to [w'] the working directory is the same, no
    entry of the file tree is gone, directories are still directories, and
    a well-formed world is still well-formed. *)
Definition extends (w w' : World) : Prop :=
  pwd w' = pwd w
  /\ (forall k, is_Some (files w !! k) -> is_Some (files w' !! k))
  /\ (forall k, files w !! k = Some Dir -> files w' !! k = Some Dir)
  /\ (wf_world w -> wf_world w').

(** ** Reading the outputs, as a requirement on every requested name *)


(** ** What the rest of the development states its properties with *)

(** The year the two digits [yy] of the directive [%y] stand for. *)
Definition century (yy : Z) : Z := if yy <=? 68 then yy + 2000 else yy + 1900.

(** The date the five digits of [s] spell: two of year, three of day. *)
Definition token_date (s : Z) : date := date_of_julian (century (s / 1000)) (s mod 1000).

Definition date_eqb (a b : date) : bool :=
  (year a =? year b) && (month a =? month b) && (day a =? day b).

(** Whether parsing the token of [s] does what [token_date] says: the date
    when the last three digits are a day of the year, an error otherwise. *)
Definition token_ok (s : Z) : bool :=
  match strptime_yj (format_05d s) with
  | inr d => in_range 1 366 (s mod 1000) && date_eqb d (token_date s)
  | inl _ => negb (in_range 1 366 (s mod 1000))
  end.

(** [f z && f (z + 1) && ...], [n] times. *)
Fixpoint all_from (n : nat) (f : Z -> bool) (z : Z) : bool :=
  match n with
  | O => true
  | S n' => f z && all_from n' f (z + 1)
  end.

Definition is_lowercase (c : ascii) : bool :=
  (97 <=? N_of_ascii c)%N && (N_of_ascii c <=? 122)%N.

(** The tables [read] stored into a cache, first to last. *)
Definition stored (read : list (string * DataFrame)) (cache : gmap string DataFrame)
    : gmap string DataFrame :=
  fold_left (fun o nd => <[nd.1 := nd.2]> o) read cache.

(** The text of the control file, lines 226-231 of [run]. *)
Definition control_text (d : Dscsm) (run_path : string) : string :=
  "WED    " +:+ path_join run_path "Weather" +:+ nl
  +:+ "MMZ    " +:+ run_path +:+ " dscsm048 MZCER048" +:+ nl
  +:+ "CRD    " +:+ _CRD_PATH d +:+ nl
  +:+ "PSD    " +:+ path_join (_STATIC_PATH d) "Pest" +:+ nl
  +:+ "SLD    " +:+ _SLD_PATH d +:+ nl
  +:+ "STD    " +:+ _STD_PATH d +:+ nl.

(** The name of the management file, lines 215-217 of [run]. *)
Definition management_name (weather : WeatherStation) (crop : Crop) (plan : Management)
    : string :=
  INSI weather +:+ strftime_ym (sim_start plan) +:+ "." +:+ CODE crop +:+ "X".

(** What every environment made by [__init__] for the package at
    [BASE_PATH] satisfies, whatever calls were made on it: its paths and the
    list of outputs it reads are those [__init__] gave it, and it has a run
    path if it is ready. *)
Definition built_for (BASE_PATH : string) (d : Dscsm) : Prop :=
  _STATIC_PATH d = _STATIC_PATH (init BASE_PATH)
  /\ _BIN_PATH d = _BIN_PATH (init BASE_PATH)
  /\ _STD_PATH d = _STD_PATH (init BASE_PATH)
  /\ _CRD_PATH d = _CRD_PATH (init BASE_PATH)
  /\ _SLD_PATH d = _SLD_PATH (init BASE_PATH)
  /\ OUTPUT_LIST d = OUTPUTS
  /\ (_SETUP d = true -> is_Some (_RUN_PATH d)).

(** The attributes no method assigns. *)
Definition fixed (h : Heap) :=
  (_STATIC_PATH (self h), _BIN_PATH (self h), _STD_PATH (self h), _CRD_PATH (self h),
   _SLD_PATH (self h), OUTPUT_LIST (self h)).
(** ** Paths *)

Lemma append_nil_l (s : string) : "" +:+ s = s.
Proof. reflexivity. Qed.

Lemma append_cons (c : ascii) (a b : string) : String c a +:+ b = String c (a +:+ b).
Proof. reflexivity. Qed.

Lemma append_assoc (a b c : string) : (a +:+ b) +:+ c = a +:+ (b +:+ c).
Proof.
  induction a as [|x a IH]; [done |]. by rewrite !append_cons, IH.
Qed.

Lemma split_sep_nonempty (s : string) : split_sep s <> [].
Proof.
  induction s as [|c s IH]; simpl; [done |].
  destruct (Ascii.eqb c sep); [done |]. by destruct (split_sep s).
Qed.

Lemma split_sep_app (a b : string) :
  split_sep (a +:+ String sep b) = split_sep a ++ split_sep b.
Proof.
  induction a as [|c a IH]; [done |].
  rewrite append_cons. simpl. rewrite IH. destruct (Ascii.eqb c sep); [done |].
  pose proof (split_sep_nonempty a). by destruct (split_sep a).
Qed.

Lemma split_sep_name (n : string) : has_sep n = false -> split_sep n = [n].
Proof.
  induction n as [|c n IH]; simpl; [done |].
  intros [Hc Hn]%orb_false_elim. rewrite Hc, (IH Hn). done.
Qed.

Lemma endswith_sep_inv (a : string) :
  endswith_sep a = true -> exists a', a = a' +:+ String sep "".
Proof.
  induction a as [|c a IH]; simpl; [done |].
  destruct a as [|d a].
  - intros Hc%Ascii.eqb_eq. subst c. by exists "".
  - intros [a' Ha']%IH. exists (String c a'). by rewrite append_cons, <- Ha'.
Qed.

Lemma name_ok_inv (n : string) :
  name_ok n = true -> n <> "" /\ n <> "." /\ n <> ".." /\ has_sep n = false.
Proof.
  unfold name_ok. rewrite !andb_true_iff, !negb_true_iff, !String.eqb_neq. tauto.
Qed.

Lemma walk_name (acc : list string) (n : string) :
  name_ok n = true -> walk acc n = acc ++ [n].
Proof.
  intros (H1 & H2 & H3 & _)%name_ok_inv. unfold walk.
  apply String.eqb_neq in H1, H2, H3. by rewrite H1, H2, H3.
Qed.

Lemma startswith_sep_app (a b : string) :
  a <> "" -> startswith_sep (a +:+ b) = startswith_sep a.
Proof. by destruct a. Qed.

Lemma startswith_sep_name (n : string) : name_ok n = true -> startswith_sep n = false.
Proof.
  intros (H1 & _ & _ & H4)%name_ok_inv. destruct n as [|c n]; [done |].
  simpl in *. by apply orb_false_elim in H4 as [-> _].
Qed.

Lemma path_join_name_ne (a n : string) : name_ok n = true -> path_join a n <> "".
Proof.
  intros Hn. pose proof (startswith_sep_name n Hn) as Hs.
  apply name_ok_inv in Hn as (H1 & _). unfold path_join. rewrite Hs.
  destruct (String.eqb a "" || endswith_sep a); destruct a;
    rewrite ?append_cons, ?append_nil_l; congruence.
Qed.

(** A name joined to a directory resolves to that name in that directory. *)
Lemma resolve_join (cwd : list string) (a n : string) :
  name_ok n = true -> resolve cwd (path_join a n) = resolve cwd a ++ [n].
Proof.
  intros Hn. pose proof (startswith_sep_name n Hn) as Hs.
  pose proof (walk_name) as Hw.
  pose proof (name_ok_inv n Hn) as (H1 & _ & _ & H4).
  unfold path_join. rewrite Hs. destruct (String.eqb_spec a "") as [-> | Ha]; simpl.
  - rewrite append_nil_l. unfold resolve. rewrite Hs, (split_sep_name n H4). simpl.
    by apply Hw.
  - destruct (endswith_sep a) eqn:He.
    + apply endswith_sep_inv in He as [a' ->]. rewrite append_assoc, append_cons, append_nil_l.
      unfold resolve. rewrite !split_sep_app, (split_sep_name n H4). simpl.
      rewrite !fold_left_app. simpl.
      assert (Hst : forall x, startswith_sep (a' +:+ String sep x) = startswith_sep (a' +:+ String sep ""))
        by (intros x; by destruct a').
      rewrite (Hst n). by rewrite Hw.
    + unfold resolve. rewrite split_sep_app, (split_sep_name n H4), fold_left_app. simpl.
      rewrite startswith_sep_app by done. by rewrite Hw.
Qed.

Lemma basename_join (a n : string) : name_ok n = true -> basename (path_join a n) = n.
Proof.
  intros Hn. pose proof (startswith_sep_name n Hn) as Hs.
  pose proof (name_ok_inv n Hn) as (H1 & _ & _ & H4).
  unfold basename, path_join. rewrite Hs.
  destruct (String.eqb_spec a "") as [-> | Ha]; simpl.
  - by rewrite append_nil_l, (split_sep_name n H4).
  - destruct (endswith_sep a) eqn:He.
    + apply endswith_sep_inv in He as [a' ->]. rewrite append_assoc, append_cons, append_nil_l.
      rewrite split_sep_app, (split_sep_name n H4). by rewrite last_last.
    + rewrite split_sep_app, (split_sep_name n H4). by rewrite last_last.
Qed.

Lemma removelast_subseteq (l : list string) (x : string) :
  x ∈ removelast l -> x ∈ l.
Proof.
  induction l as [|y l IH]; simpl; [done |].
  destruct l as [|z l]; [by intros ?%elem_of_nil |].
  rewrite (elem_of_cons (removelast _)), (elem_of_cons (z :: l)).
  intros [-> | Hx]; [by left | right]. by apply IH.
Qed.

Lemma split_sep_components (p : string) :
  Forall (fun c => has_sep c = false) (split_sep p).
Proof.
  induction p as [|c p IH]; simpl; [by repeat constructor |].
  destruct (Ascii.eqb c sep) eqn:Hc; [by constructor |].
  destruct (split_sep p) as [|x xs]; [by repeat constructor; simpl; rewrite Hc |].
  inversion IH; subst. constructor; [| done]. simpl. by rewrite Hc.
Qed.

Lemma walk_ok (acc : list string) (c : string) :
  has_sep c = false -> key_ok acc -> key_ok (walk acc c).
Proof.
  intros Hc Hacc. unfold walk.
  destruct (String.eqb_spec c "") as [-> | H1]; simpl; [done |].
  destruct (String.eqb_spec c ".") as [-> | H2]; simpl; [done |].
  destruct (String.eqb_spec c "..") as [-> | H3]; simpl.
  - unfold key_ok in *. rewrite Forall_forall in *. intros x Hx. apply Hacc.
    by apply removelast_subseteq.
  - apply Forall_app; split; [done |]. constructor; [| done].
    unfold name_ok. apply String.eqb_neq in H1, H2, H3. by rewrite H1, H2, H3, Hc.
Qed.

(** Resolving a path from a well-formed directory gives a well-formed place. *)
Lemma resolve_ok (cwd : list string) (p : string) : key_ok cwd -> key_ok (resolve cwd p).
Proof.
  intros Hcwd. unfold resolve.
  assert (Hstart : key_ok (if startswith_sep p then [] else cwd))
    by (destruct (startswith_sep p); [constructor | done]).
  revert Hstart. generalize (if startswith_sep p then [] else cwd).
  pose proof (split_sep_components p) as Hc. induction Hc as [|c cs Hc _ IH]; simpl; [done |].
  intros acc Hacc. apply IH. by apply walk_ok.
Qed.

(** ** Directory listings *)

Lemma child_of_Some (k k' : list string) (n : string) :
  child_of k k' = Some n <-> k' = k ++ [n].
Proof.
  unfold child_of. split.
  - case_decide as H; [| done]. destruct H as [Hlen Htake]. intros Hlast.
    rewrite <- (take_drop (length k) k') at 1. rewrite Htake. f_equal.
    destruct (drop (length k) k') as [|x [|y l]] eqn:Hd.
    + apply (f_equal length) in Hd. rewrite length_drop in Hd. simpl in Hd. lia.
    + rewrite <- (take_drop (length k) k'), Hd, last_snoc in Hlast.
      by injection Hlast as ->.
    + apply (f_equal length) in Hd. rewrite length_drop in Hd. simpl in Hd. lia.
  - intros ->. rewrite decide_True.
    + by rewrite last_snoc.
    + rewrite length_app. simpl. split; [lia |]. by rewrite take_app_length.
Qed.

Lemma elem_of_children (fs : gmap (list string) node) (k : list string) (n : string) :
  n ∈ children fs k <-> is_Some (fs !! (k ++ [n])).
Proof.
  unfold children. rewrite list_elem_of_omap. split.
  - intros (k' & Hk' & Hc). apply child_of_Some in Hc as ->.
    apply list_elem_of_fmap in Hk' as ([k1 x] & -> & Hin).
    apply elem_of_map_to_list in Hin. by exists x.
  - intros [x Hx]. exists (k ++ [n]). split; [| by apply child_of_Some].
    apply list_elem_of_fmap. exists (k ++ [n], x). split; [done |].
    by apply elem_of_map_to_list.
Qed.

Lemma children_ok (fs : gmap (list string) node) (k : list string) (n : string) :
  wf_files fs -> n ∈ children fs k -> name_ok n = true.
Proof.
  intros Hwf [x Hx]%elem_of_children. apply Hwf in Hx.
  unfold key_ok in Hx. rewrite Forall_app in Hx. destruct Hx as [_ Hn].
  by inversion Hn.
Qed.

(** ** Reasoning about computations *)

Lemma bind_inr {S A B} (c : M S A) (k : A -> M S B) (s s' : S) (a : A) :
  c s = (inr a, s') -> (c ≫= k) s = k a s'.
Proof. intros H. unfold mbind, M_bind, bind. by rewrite H. Qed.

Lemma bind_inl {S A B} (c : M S A) (k : A -> M S B) (s s' : S) (e : exn) :
  c s = (inl e, s') -> (c ≫= k) s = (inl e, s').
Proof. intros H. unfold mbind, M_bind, bind. by rewrite H. Qed.

Lemma bind_inv {S A B} (c : M S A) (k : A -> M S B) (s s'' : S) (r : exn + B) :
  (c ≫= k) s = (r, s'') ->
  (exists e, c s = (inl e, s'') /\ r = inl e)
  \/ (exists a s', c s = (inr a, s') /\ k a s' = (r, s'')).
Proof.
  unfold mbind, M_bind, bind. destruct (c s) as [[e | a] s'].
  - intros [= <- <-]. left. by exists e.
  - intros H. right. by exists a, s'.
Qed.

#[global] Instance unchanged_preorder {B} (f : Heap -> B) : PreOrder (unchanged f).
Proof.
  split; [by intros h | intros h1 h2 h3 H12 H23]. unfold unchanged in *. congruence.
Qed.

Section Keeps.
Context {S : Type} (R : relation S) `{!PreOrder R}.

Lemma keeps_ret {A} (a : A) : keeps R (ret a : M S A).
Proof. intros s. simpl. reflexivity. Qed.

Lemma keeps_raise {A} (e : exn) : keeps R (raise e : M S A).
Proof. intros s. simpl. reflexivity. Qed.

Lemma keeps_get : keeps R (get : M S S).
Proof. intros s. simpl. reflexivity. Qed.

Lemma keeps_modify (f : S -> S) : (forall s, R s (f s)) -> keeps R (modify f).
Proof. intros H s. apply H. Qed.

Lemma keeps_bind {A B} (c : M S A) (k : A -> M S B) :
  keeps R c -> (forall a, keeps R (k a)) -> keeps R (c ≫= k).
Proof.
  intros Hc Hk s. unfold mbind, M_bind, bind. specialize (Hc s).
  destruct (c s) as [[e | a] s']; simpl in *; [done |].
  etrans; [exact Hc | apply Hk].
Qed.

Lemma keeps_for_each {A} (l : list A) (body : A -> M S unit) :
  (forall x, keeps R (body x)) -> keeps R (for_each l body).
Proof.
  intros Hb. induction l as [|x l IH]; simpl; [apply keeps_ret |].
  apply keeps_bind; [apply Hb | by intros _].
Qed.

Lemma keeps_assert (cond : bool) (msg : string) : keeps R (py_assert cond msg : M S unit).
Proof. destruct cond; [apply keeps_ret | apply keeps_raise]. Qed.

Lemma keeps_pure {A} (r : exn + A) : keeps R (pure r : M S A).
Proof. destruct r; [apply keeps_raise | apply keeps_ret]. Qed.

Lemma keeps_getitem {A} (d : gmap string A) (k : string) : keeps R (getitem d k : M S A).
Proof. unfold getitem. destruct (d !! k); [apply keeps_ret | apply keeps_raise]. Qed.
End Keeps.

Lemma keeps_sys {A B} (f : Heap -> B) (c : OS A) :
  (forall h w, f (mkHeap (self h) (management h) w) = f h) -> keeps (unchanged f) (sys c).
Proof. intros H h. unfold sys. simpl. apply H. Qed.

Lemma keeps_RUN_PATH (R : relation Heap) `{!PreOrder R} : keeps R RUN_PATH.
Proof.
  unfold RUN_PATH. apply keeps_bind; [done | apply keeps_get; done |].
  intros h. destruct (_RUN_PATH (self h)); [by apply keeps_ret | by apply keeps_raise].
Qed.

(** Splitting a goal [keeps R c] along the structure of [c]. *)
Ltac keeps_step :=
  first
    [ apply keeps_bind; [apply _ | | intros ?]
    | apply keeps_ret; apply _
    | apply keeps_raise; apply _
    | apply keeps_get; apply _
    | apply keeps_RUN_PATH; apply _
    | apply keeps_assert; apply _
    | apply keeps_pure; apply _
    | apply keeps_getitem; apply _
    | apply keeps_for_each; [apply _ | intros ?]
    | apply keeps_sys; done
    | apply keeps_modify; intros ?; done
    | match goal with
      | |- keeps _ (if ?b then _ else _) => destruct b
      | |- keeps _ (match ?x with _ => _ end) => destruct x
      end ].
Ltac keeps_all := repeat keeps_step.

Section Frames.
Variable default_mode : Z.
Variable TMP_BASE : string.
Variable rand_index : nat -> nat.
Context `{!Writes Management, !Writes Crop, !Writes SoilProfile,
          !Writes WeatherStation}.
Variable subprocess_run : list string -> string -> OS Z.
Variable read_csv : string -> exn + DataFrame.

(** [close] changes neither the environment nor the management plan. *)
Lemma close_keeps_objects : keeps (unchanged (fun h => (self h, management h))) close.
Proof. unfold close. keeps_all. Qed.

(** Until its last statement [setup] leaves the readiness flag alone. *)
Lemma make_run_path_keeps_SETUP cwd :
  keeps (unchanged (fun h => _SETUP (self h))) (make_run_path TMP_BASE rand_index cwd).
Proof. unfold make_run_path. keeps_all. Qed.

Lemma move_files_keeps_self :
  keeps (unchanged (fun h => (self h, management h))) (move_files default_mode).
Proof. unfold move_files. keeps_all. Qed.

(** [run] changes no attribute of the environment but [output]. *)
Lemma run_keeps_settings soil weather crop :
  keeps (unchanged settings) (run default_mode subprocess_run read_csv soil weather crop).
Proof.
  unfold run, remove_previous_outputs, compile_execute_read, fill_management,
    write_inputs, execute, read_outputs, read_output.
  keeps_all.
Qed.
End Frames.

(** ** The readiness flag *)

Section Readiness.
Variable default_mode : Z.
Variable TMP_BASE : string.
Variable rand_index : nat -> nat.
Context `{!Writes Management, !Writes Crop, !Writes SoilProfile,
          !Writes WeatherStation}.
Variable subprocess_run : list string -> string -> OS Z.
Variable read_csv : string -> exn + DataFrame.

Lemma run_unset soil weather crop h :
  _SETUP (self h) = false ->
  run default_mode subprocess_run read_csv soil weather crop h = (inl (AssertionError SETUP_MESSAGE), h).
Proof.
  intros Hflag. unfold run, mbind, M_bind, bind. simpl. by rewrite Hflag.
Qed.

Lemma run_set soil weather crop h :
  _SETUP (self h) = true ->
  run default_mode subprocess_run read_csv soil weather crop h
  = (remove_previous_outputs;;
     compile_execute_read default_mode subprocess_run read_csv soil weather crop) h.
Proof.
  intros Hflag. unfold run, mbind, M_bind, bind at 1 2. simpl. by rewrite Hflag.
Qed.

(** A [setup] that raises leaves the flag as it was. *)
Lemma setup_raises_keeps_SETUP cwd overwrite h e h' :
  setup default_mode TMP_BASE rand_index cwd overwrite h = (inl e, h') -> _SETUP (self h') = _SETUP (self h).
Proof.
  unfold setup. intros Hs.
  pose proof (make_run_path_keeps_SETUP TMP_BASE rand_index cwd h) as Hmk.
  apply bind_inv in Hs as [(e1 & Hmake & _) | (a & h1 & Hmake & Hs)].
  { by rewrite Hmake in Hmk. }
  rewrite Hmake in Hmk. simpl in Hmk. unfold unchanged in Hmk. rewrite <- Hmk.
  pose proof (move_files_keeps_self default_mode h1) as Hmv.
  apply bind_inv in Hs as [(e1 & Hmove & _) | (b & h2 & Hmove & Hs)]; [| done].
  rewrite Hmove in Hmv. simpl in Hmv. unfold unchanged in Hmv. congruence.
Qed.

Lemma history_unset cs h h' :
  _SETUP (self h) = false -> history default_mode TMP_BASE rand_index subprocess_run read_csv cs h = (false, h') ->
  _SETUP (self h') = false.
Proof.
  revert h. induction cs as [|c cs IH]; simpl; intros h Hflag.
  { by intros [= <-]. }
  intros [= Hnone Hh']. apply orb_false_elim in Hnone as [Hc Hrest].
  apply (IH (perform default_mode TMP_BASE rand_index subprocess_run read_csv c h).2).
  - destruct c as [cwd overwrite | soil weather crop |]; simpl in *.
    + destruct (setup default_mode TMP_BASE rand_index cwd overwrite h) as [[e | []] h1] eqn:Hs; [| done].
      simpl. by rewrite (setup_raises_keeps_SETUP _ _ _ _ _ Hs).
    + pose proof (run_keeps_settings default_mode subprocess_run read_csv
                    soil weather crop h) as Hk.
      unfold unchanged, settings in Hk. congruence.
    + pose proof (close_keeps_objects h) as Hk. unfold unchanged in Hk.
      injection Hk as Hk _. by rewrite Hk.
  - by apply injective_projections.
Qed.

(** C2: on an environment created by [__init__] on which no call of
    [setup] has returned, whatever calls were made in between, [run] raises
    the assertion error of the readiness check and leaves the heap as it
    found it: the same file tree, nothing added to the trace of writes,
    the same management plan. *)
Theorem run_requires_setup BASE_PATH plan w cs h soil weather crop :
  history default_mode TMP_BASE rand_index subprocess_run read_csv cs (mkHeap (init BASE_PATH) plan w) = (false, h) ->
  run default_mode subprocess_run read_csv soil weather crop h = (inl (AssertionError SETUP_MESSAGE), h).
Proof.
  intros Hh. apply run_unset. by apply (history_unset cs _ h) in Hh.
Qed.

(** C9: [setup] never looks at [overwrite]: with [True] and with [False]
    it returns or raises the same and leaves the same heap, whatever the
    path and the state it starts from. *)
Theorem setup_ignores_overwrite cwd h :
  setup default_mode TMP_BASE rand_index cwd true h = setup default_mode TMP_BASE rand_index cwd false h.
Proof. reflexivity. Qed.

End Readiness.

(** ** Closing the environment *)

Section Closing.
Variable default_mode : Z.
Context `{!Writes Management, !Writes Crop, !Writes SoilProfile,
          !Writes WeatherStation}.
Variable subprocess_run : list string -> string -> OS Z.
Variable read_csv : string -> exn + DataFrame.

Lemma rmtree_returns p w w' :
  rmtree p w = (inr tt, w') ->
  stat w p = Some Dir
  /\ pwd w' = pwd w
  /\ files w' = filter (fun kv => ~ resolve (pwd w) p `prefix_of` kv.1) (files w).
Proof.
  unfold rmtree, mbind, M_bind, bind. simpl.
  destruct (stat w p) as [[|data mode] |]; simpl; [| done | done].
  by intros [= <-].
Qed.

Lemma rmtree_removes p w w' k :
  rmtree p w = (inr tt, w') -> resolve (pwd w) p `prefix_of` k -> files w' !! k = None.
Proof.
  intros (_ & _ & ->)%rmtree_returns Hpre.
  apply map_lookup_filter_None. right. intros x _ Hnot. by apply Hnot.
Qed.

(** C10: [close] removes the working directory and everything below it and
    changes nothing else of the environment: the object is the same, the
    readiness flag with it, the output cache with it, and so is the
    management plan.  A later [run] on the closed environment therefore
    passes the readiness check and goes on to list the working directory,
    where it raises [FileNotFoundError]. *)
Theorem close_keeps_environment h p r h' :
  _SETUP (self h) = true -> _RUN_PATH (self h) = Some p -> close h = (r, h') ->
  self h' = self h
  /\ _SETUP (self h') = true
  /\ output (self h') = output (self h)
  /\ management h' = management h
  /\ (r = inr tt ->
      forall k, resolve (pwd (os h)) p `prefix_of` k -> files (os h') !! k = None)
  /\ (forall soil weather crop,
        run default_mode subprocess_run read_csv soil weather crop h'
        = (remove_previous_outputs;;
           compile_execute_read default_mode subprocess_run read_csv soil weather crop) h')
  /\ (r = inr tt -> resolve (pwd (os h)) p <> [] ->
      forall soil weather crop,
        run default_mode subprocess_run read_csv soil weather crop h' = (inl (FileNotFoundError p), h')).
Proof.
  intros Hflag Hpath Hclose.
  pose proof (close_keeps_objects h) as Hk. rewrite Hclose in Hk.
  unfold unchanged in Hk. simpl in Hk. injection Hk as Hself Hplan.
  assert (Hrun : forall soil weather crop,
    run default_mode subprocess_run read_csv soil weather crop h'
    = (remove_previous_outputs;;
       compile_execute_read default_mode subprocess_run read_csv soil weather crop) h').
  { intros. apply run_set. by rewrite Hself. }
  split_and!; try done; try (by rewrite Hself).
  - intros -> k Hpre. revert Hclose.
    unfold close, RUN_PATH, mbind, M_bind, bind, sys. simpl. rewrite Hpath. simpl.
    destruct (rmtree p (os h)) as [r w'] eqn:Hrm. simpl. intros [= -> <-]. simpl.
    by apply (rmtree_removes p (os h)).
  - intros -> Hne soil weather crop. rewrite Hrun. revert Hclose.
    unfold close, RUN_PATH, mbind, M_bind, bind, sys. simpl. rewrite Hpath. simpl.
    destruct (rmtree p (os h)) as [r w'] eqn:Hrm. simpl. intros [= -> <-].
    pose proof (rmtree_returns _ _ _ Hrm) as (Hdir & Hpwd & Hfiles).
    unfold remove_previous_outputs, RUN_PATH, listdir, mbind, M_bind, bind, sys. simpl.
    rewrite Hpath. simpl. unfold stat in *. rewrite Hpwd.
    destruct (String.eqb p ""); [done |]. unfold node_at. rewrite decide_False by done.
    by rewrite (rmtree_removes p (os h) w' _ Hrm).
Qed.

End Closing.

(** ** The engine and its outputs *)

Section Engine.
Variable default_mode : Z.
Context `{!Writes Management, !Writes Crop, !Writes SoilProfile,
          !Writes WeatherStation}.
Variable subprocess_run : list string -> string -> OS Z.
Variable read_csv : string -> exn + DataFrame.

Lemma execute_spec h p management_filename returncode w' :
  _RUN_PATH (self h) = Some p ->
  subprocess_run [_BIN_PATH (self h); "C"; basename management_filename; "1"] p (os h)
  = (inr returncode, w') ->
  execute subprocess_run management_filename h
  = (if returncode =? 0 then inr tt else inl (AssertionError (EXECUTION_MESSAGE p)),
     mkHeap (self h) (management h) w').
Proof.
  intros Hpath Hrun.
  unfold execute, RUN_PATH, py_assert, mbind, M_bind, bind, sys. simpl.
  rewrite Hpath. simpl. rewrite Hrun. simpl. by destruct (returncode =? 0).
Qed.

(** C6: when [run] has come as far as the engine and the engine exits with
    a return code other than 0, [run] raises the assertion error whose
    message holds the path of [ERROR.OUT] in the working directory; when the
    return code is 0 the assertion passes and [run] goes on to read the
    outputs. *)
Theorem run_checks_returncode soil weather crop h h1 h2 h3 p management_filename
    returncode w' :
  _SETUP (self h) = true ->
  remove_previous_outputs h = (inr tt, h1) ->
  fill_management soil weather crop h1 = (inr tt, h2) ->
  write_inputs default_mode soil weather crop h2 = (inr management_filename, h3) ->
  _RUN_PATH (self h3) = Some p ->
  subprocess_run [_BIN_PATH (self h3); "C"; basename management_filename; "1"] p (os h3)
  = (inr returncode, w') ->
  let h4 := mkHeap (self h3) (management h3) w' in
  (returncode <> 0 ->
   run default_mode subprocess_run read_csv soil weather crop h = (inl (AssertionError (EXECUTION_MESSAGE p)), h4))
  /\ (returncode = 0 ->
      execute subprocess_run management_filename h3 = (inr tt, h4)
      /\ run default_mode subprocess_run read_csv soil weather crop h = read_outputs read_csv h4)
  /\ EXECUTION_MESSAGE p
     = "DSSAT execution Failed, check "
       +:+ (path_join p "ERROR.OUT" +:+ " file for a detailed report").
Proof.
  intros Hflag Hrm Hfill Hwrite Hpath Hengine h4.
  pose proof (execute_spec h3 p management_filename returncode w' Hpath Hengine) as Hexec.
  assert (Hrun : run default_mode subprocess_run read_csv soil weather crop h
                 = (execute subprocess_run management_filename;; read_outputs read_csv) h3).
  { rewrite (run_set default_mode subprocess_run read_csv) by done.
    rewrite (bind_inr _ _ _ _ _ Hrm). unfold compile_execute_read.
    rewrite (bind_inr _ _ _ _ _ Hfill). by rewrite (bind_inr _ _ _ _ _ Hwrite). }
  split_and!.
  - intros Hne. apply Z.eqb_neq in Hne. rewrite Hne in Hexec.
    by rewrite Hrun, (bind_inl _ _ _ _ _ Hexec).
  - intros ->. simpl in Hexec. split; [done |].
    by rewrite Hrun, (bind_inr _ _ _ _ _ Hexec).
  - reflexivity.
Qed.



Lemma read_output_keeps OUTPUT_FILES file :
  keeps (unchanged (fun h => _RUN_PATH (self h))) (read_output read_csv OUTPUT_FILES file).
Proof. unfold read_output. keeps_all. Qed.



Lemma read_loop_keeps_RUN_PATH OUTPUT_FILES names h r h' :
  for_each names (read_output read_csv OUTPUT_FILES) h = (r, h') ->
  _RUN_PATH (self h') = _RUN_PATH (self h).
Proof.
  intros Hloop.
  assert (Hk : keeps (unchanged (fun h => _RUN_PATH (self h)))
                 (for_each names (read_output read_csv OUTPUT_FILES))).
  { apply keeps_for_each; [apply _ |]. intros file. apply read_output_keeps. }
  specialize (Hk h). by rewrite Hloop in Hk.
Qed.





End Engine.

(** ** The initial-conditions table *)

#[local] Set Warnings "-inexact-float".

#[global] Instance by_ICBL_total : Total by_ICBL.
Proof. intros r1 r2. unfold by_ICBL. lia. Qed.

Lemma sort_values_ICBL_Permutation rows : sort_values_ICBL rows ≡ₚ rows.
Proof. apply merge_sort_Permutation. Qed.

Lemma sort_values_ICBL_Sorted rows : Sorted Z.le ((sort_values_ICBL rows).*1).
Proof.
  apply (Sorted_fmap fst by_ICBL Z.le); [by intros r1 r2 |].
  apply (Sorted_merge_sort by_ICBL).
Qed.

Lemma one_is_not_zero : 1%float <> 0%float.
Proof.
  intros H. assert (E : PrimFloat.ltb 0 1 = PrimFloat.ltb 0 0) by (by rewrite H).
  vm_compute in E. discriminate.
Qed.

Lemma initial_conditions_table_unfold soil fraction :
  layers soil <> [] ->
  let rows := sort_values_ICBL (initial_swc_rows soil fraction) in
  initial_conditions_table soil fraction
  = inr (mkTable rows.*1 rows.*2 (repeat 0%float (length rows))
           (1%float :: repeat 0%float (length rows - 1))).
Proof.
  intros Hne rows. unfold initial_conditions_table. fold rows.
  assert (Hlen : (0 < length rows)%nat).
  { unfold rows. rewrite (Permutation_length (sort_values_ICBL_Permutation _)).
    unfold initial_swc_rows. rewrite length_map. destruct (layers soil); [done | simpl; lia]. }
  unfold column_of_length. rewrite repeat_length, Nat.eqb_refl.
  replace (Z.to_nat (Z.of_nat (length rows) - 1)) with (length rows - 1)%nat by lia.
  rewrite length_app, repeat_length.
  replace (length [1%float] + (length rows - 1))%nat with (length rows) by (simpl; lia).
  by rewrite Nat.eqb_refl.
Qed.

Lemma initial_conditions_table_rows soil fraction t :
  initial_conditions_table soil fraction = inr t ->
  ICBL t = (sort_values_ICBL (initial_swc_rows soil fraction)).*1
  /\ SH2O t = (sort_values_ICBL (initial_swc_rows soil fraction)).*2.
Proof.
  unfold initial_conditions_table.
  destruct (column_of_length _ (repeat _ _)); [done |].
  destruct (column_of_length _ _); [done |]. by intros [= <-].
Qed.

(** The table [run] stores in the management plan is the one of
    [initial_conditions_table]. *)
Lemma fill_management_table soil weather crop h h' :
  fill_management soil weather crop h = (inr tt, h') ->
  exists t, initial_conditions_table soil (initial_swc (management h)) = inr t
            /\ initial_conditions (management h') !! "table" = Some (VTable t).
Proof.
  unfold fill_management, getitem, pure, mbind, M_bind, bind. simpl.
  destruct (crop_cultivar crop !! cultivar (management h)) as [entry |]; simpl; [| done].
  destruct (entry !! "VRNAME..........") as [name |]; simpl; [| done].
  rewrite lookup_insert_ne by done.
  destruct (initial_conditions (management h) !! "ICDAT") as [icdat |]; simpl; [| done].
  destruct (py_not icdat) as [e | unset]; simpl; [done |].
  destruct unset; simpl;
    (destruct (initial_conditions_table soil (initial_swc (management h))) as [e | t];
     simpl; [done |]; intros [= <-]; exists t; split; [done |]; simpl;
     by rewrite lookup_insert_eq).
Qed.

(** C3: every layer of the soil profile has a row in the table whose water
    content is [SLLL + initial_swc * (SDUL - SLLL)], in the arithmetic of
    floats, every row comes from a layer in this way, the table is the one
    [run] stores in the management plan, and for limits 0.10 and 0.30 and
    fraction 0.5 the value computed is the float 0.20. *)
Theorem initial_water_content soil fraction t :
  initial_conditions_table soil fraction = inr t ->
  (forall depth layer, (depth, layer) ∈ layers soil ->
     exists i, ICBL t !! i = Some depth
               /\ SH2O t !! i
                  = Some (SLLL layer + fraction * (SDUL layer - SLLL layer))%float)
  /\ (forall i depth water, ICBL t !! i = Some depth -> SH2O t !! i = Some water ->
        exists layer, (depth, layer) ∈ layers soil
                      /\ water = (SLLL layer + fraction * (SDUL layer - SLLL layer))%float)
  /\ (forall weather crop h h',
        initial_swc (management h) = fraction ->
        fill_management soil weather crop h = (inr tt, h') ->
        initial_conditions (management h') !! "table" = Some (VTable t))
  /\ layer_water 0.5 (mkLayer 0.10 0.30) = 0.20%float.
Proof.
  intros Ht. destruct (initial_conditions_table_rows _ _ _ Ht) as [HI HS].
  pose proof (sort_values_ICBL_Permutation (initial_swc_rows soil fraction)) as Hperm.
  split_and!.
  - intros depth layer Hin.
    assert (Hrow : (depth, layer_water fraction layer)
                     ∈ sort_values_ICBL (initial_swc_rows soil fraction)).
    { rewrite Hperm. unfold initial_swc_rows. apply list_elem_of_fmap.
      by exists (depth, layer). }
    apply list_elem_of_lookup in Hrow as [i Hi]. exists i.
    rewrite HI, HS, !list_lookup_fmap, Hi. done.
  - intros i depth water. rewrite HI, HS, !list_lookup_fmap.
    destruct (sort_values_ICBL _ !! i) as [[d w] |] eqn:Hi; simpl; [| done].
    intros [= ->] [= ->].
    apply list_elem_of_lookup_2 in Hi. rewrite Hperm in Hi.
    apply list_elem_of_fmap in Hi as ([d layer] & [= -> ->] & Hin). by exists layer.
  - intros weather crop h h' Hf Hfill.
    apply fill_management_table in Hfill as (t' & Ht' & Hstored).
    rewrite Hf in Ht'. congruence.
  - vm_compute. reflexivity.
Qed.

(** C4: for a soil profile with at least one layer the table is built; its
    depths are those of the layers, ascending; every column has one value for
    each row; the ammonium column is 0.0 in every row; the nitrate column
    is 1.0 in the first row and 0.0 in every other row, and 1.0 is not 0.0. *)
Theorem initial_conditions_table_nitrate soil fraction :
  layers soil <> [] ->
  exists t,
    initial_conditions_table soil fraction = inr t
    /\ ICBL t ≡ₚ (layers soil).*1
    /\ Sorted Z.le (ICBL t)
    /\ length (SH2O t) = length (ICBL t)
    /\ length (SNH4 t) = length (ICBL t)
    /\ length (SNO3 t) = length (ICBL t)
    /\ (forall i x, SNH4 t !! i = Some x -> x = 0%float)
    /\ SNO3 t !! 0%nat = Some 1%float
    /\ (forall i x, SNO3 t !! i = Some x -> i <> 0%nat -> x = 0%float)
    /\ 1%float <> 0%float.
Proof.
  intros Hne. eexists. split; [by apply initial_conditions_table_unfold |]. simpl.
  pose proof (sort_values_ICBL_Permutation (initial_swc_rows soil fraction)) as Hperm.
  set (rows := sort_values_ICBL (initial_swc_rows soil fraction)) in *.
  assert (Hlen : (0 < length rows)%nat).
  { rewrite (Permutation_length Hperm). unfold initial_swc_rows. rewrite length_map.
    destruct (layers soil); [done | simpl; lia]. }
  split_and!.
  - rewrite Hperm.
    assert (E : (initial_swc_rows soil fraction).*1 = (layers soil).*1).
    { unfold initial_swc_rows. clear.
      induction (layers soil) as [|[d l] ls IH]; [done |]. simpl. f_equal. exact IH. }
    by rewrite E.
  - apply sort_values_ICBL_Sorted.
  - by rewrite !length_fmap.
  - by rewrite repeat_length, length_fmap.
  - rewrite repeat_length, length_fmap. lia.
  - intros i x Hx. apply list_elem_of_lookup_2, list_elem_of_In, repeat_spec in Hx. done.
  - done.
  - intros [|i] x Hx Hi; [done |]. simpl in Hx.
    by apply list_elem_of_lookup_2, list_elem_of_In, repeat_spec in Hx.
  - apply one_is_not_zero.
Qed.

(** ** The date index *)

(** C1: the two columns are added as integers before the sum is formatted, so
    a row with year 23 and day of the year 45 gives the token 00068, which
    reads as day 68 of 2000, the 8th of March, and not as the 45th day of
    2023, the 14th of February. *)
Theorem reconstruct_index_adds_columns :
  add_and_format (IntCol [23]) (IntCol [45]) = inr ["00068"]
  /\ reconstruct_index
       (mkFrame [("@YEAR", IntCol [23]); ("DOY", IntCol [45])] (RangeIndex 1))
     = inr (mkFrame [("@YEAR", IntCol [23]); ("DOY", IntCol [45])]
                    (DatetimeIndex [mkDate 2000 3 8]))
  /\ strptime_yj "23045" = inr (date_of_julian 2023 45)
  /\ date_of_julian 2023 45 = mkDate 2023 2 14
  /\ mkDate 2000 3 8 <> date_of_julian 2023 45.
Proof.
  split_and!; try (vm_compute; reflexivity). vm_compute. discriminate.
Qed.

(** ** Removing the previous outputs *)

Lemma stat_join w p f :
  name_ok f = true -> stat w (path_join p f) = files w !! (resolve (pwd w) p ++ [f]).
Proof.
  intros Hf. unfold stat.
  pose proof (path_join_name_ne p f Hf) as Hne. apply String.eqb_neq in Hne. rewrite Hne.
  rewrite resolve_join by done. unfold node_at. rewrite decide_False; [done |].
  by destruct (resolve (pwd w) p).
Qed.

Lemma sys_bind {A B} (c : OS A) (k : A -> OS B) h :
  sys (c ≫= k) h = (sys c ≫= fun a => sys (k a)) h.
Proof.
  unfold sys, mbind, M_bind, bind. simpl. by destruct (c (os h)) as [[e | a] w'].
Qed.

Lemma for_each_sys {A} (l : list A) (body : A -> OS unit) h :
  for_each l (fun x => sys (body x)) h = sys (for_each l body) h.
Proof.
  revert h. induction l as [|x l IH]; intros h; [by destruct h |].
  simpl. rewrite sys_bind. unfold mbind, M_bind, bind.
  destruct (sys (body x) h) as [[e | []] h1]; [done | apply IH].
Qed.


Lemma RUN_PATH_get h p : _RUN_PATH (self h) = Some p -> RUN_PATH h = (inr p, h).
Proof. intros Hp. unfold RUN_PATH, mbind, M_bind, bind. simpl. by rewrite Hp. Qed.

Lemma sys_listdir h p :
  sys (listdir p) h
  = (match stat (os h) p with
     | Some Dir => inr (children (files (os h)) (resolve (pwd (os h)) p))
     | Some (File _ _) => inl (NotADirectoryError p)
     | None => inl (FileNotFoundError p)
     end, h).
Proof.
  unfold sys, listdir, mbind, M_bind, bind. simpl.
  destruct h as [d m w]. simpl. by destruct (stat w p) as [[|data mode] |].
Qed.

Section Outputs.
Variable default_mode : Z.
Context `{!Writes Management, !Writes Crop, !Writes SoilProfile,
          !Writes WeatherStation}.
Variable subprocess_run : list string -> string -> OS Z.
Variable read_csv : string -> exn + DataFrame.


End Outputs.

(** ** Writing into the file tree *)

#[global] Instance extends_preorder : PreOrder extends.
Proof.
  split.
  - intros w. by split_and!.
  - intros w1 w2 w3 (P12 & S12 & D12 & W12) (P23 & S23 & D23 & W23). split_and!.
    + congruence.
    + intros k Hk. by apply S23, S12.
    + intros k Hk. by apply D23, D12.
    + intros Hwf. by apply W23, W12.
Qed.

Lemma extends_log e w : extends w (log e w).
Proof. by split_and!. Qed.

(** Writing a node at the place of a path keeps what is there, unless it
    writes a file over a directory. *)
Lemma extends_insert w q x :
  (files w !! resolve (pwd w) q = Some Dir -> x = Dir) ->
  extends w (set_files <[resolve (pwd w) q := x]> w).
Proof.
  intros Hdir. split_and!; simpl.
  - done.
  - intros k Hk. rewrite lookup_insert. by case_decide.
  - intros k Hk. rewrite lookup_insert. case_decide as Heq; [| done].
    subst k. f_equal. by apply Hdir.
  - intros [Hpwd Hfiles]. split; [done |]. simpl.
    apply map_Forall_insert_2; [by apply resolve_ok | done].
Qed.

Lemma extends_stat_Some w w' q : extends w w' -> is_Some (stat w q) -> is_Some (stat w' q).
Proof.
  intros (Hpwd & Hsome & _) Hq. unfold stat, node_at in *. rewrite Hpwd.
  destruct (String.eqb q ""); [done |]. case_decide; [done |]. by apply Hsome.
Qed.

Lemma extends_stat_Dir w w' q : extends w w' -> stat w q = Some Dir -> stat w' q = Some Dir.
Proof.
  intros (Hpwd & _ & Hdir & _) Hq. unfold stat, node_at in *. rewrite Hpwd.
  destruct (String.eqb q ""); [done |]. case_decide; [done |]. by apply Hdir.
Qed.

Lemma stat_File_lookup w q data mode :
  stat w q = Some (File data mode) -> files w !! resolve (pwd w) q = Some (File data mode).
Proof.
  unfold stat, node_at. destruct (String.eqb q ""); [done |]. by case_decide.
Qed.

Lemma stat_None_lookup w q :
  stat w q = None -> q <> "" -> files w !! resolve (pwd w) q = None.
Proof.
  unfold stat, node_at. intros Hs Hq. apply String.eqb_neq in Hq. rewrite Hq in Hs.
  by case_decide.
Qed.

Section Writing.
Variable default_mode : Z.

(** What [store] does when it returns: one insertion of a file. *)
Lemma store_returns q data w w' :
  store default_mode q data w = (inr tt, w') ->
  exists mode, w' = set_files <[resolve (pwd w) q := File data mode]> w
               /\ files w !! resolve (pwd w) q <> Some Dir
               /\ q <> "".
Proof.
  unfold store, mbind, M_bind, bind. simpl.
  destruct (String.eqb_spec q "") as [-> | Hq]; [done |].
  destruct (stat w q) as [[|old mode] |] eqn:Hstat; simpl; [done | |].
  - intros [= <-]. exists mode. split_and!; [done | | done].
    by rewrite (stat_File_lookup _ _ _ _ Hstat).
  - unfold parent_dir.
    destruct (node_at (files w) (removelast (resolve (pwd w) q))) as [[|? ?] |];
      simpl; [| done | done].
    intros [= <-]. exists default_mode. split_and!; [done | | done].
    by rewrite (stat_None_lookup _ _ Hstat Hq).
Qed.

Lemma store_extends q data w : extends w (store default_mode q data w).2.
Proof.
  destruct (store default_mode q data w) as [[e | []] w'] eqn:Hs.
  - revert Hs. unfold store, mbind, M_bind, bind. simpl.
    destruct (String.eqb q ""); [by intros [= _ <-] |].
    destruct (stat w q) as [[|old mode] |]; simpl; [by intros [= _ <-] | done |].
    destruct (parent_dir w q); simpl; [by intros [= _ <-] | done].
  - apply store_returns in Hs as (mode & -> & Hnd & _). simpl. by apply extends_insert.
Qed.

(** What [copyfile] does when it returns. *)
Lemma copyfile_returns src dst w w' :
  copyfile default_mode src dst w = (inr tt, w') ->
  exists data mode mode',
    stat w src = Some (File data mode)
    /\ ~ (is_Some (stat w dst) /\ resolve (pwd w) src = resolve (pwd w) dst)
    /\ w' = log (EvCopy src dst)
              (set_files <[resolve (pwd w) dst := File data mode']> w)
    /\ is_Some (stat w' dst).
Proof.
  unfold copyfile, mbind, M_bind, bind. simpl.
  destruct (stat w src) as [[|data mode] |] eqn:Hsrc; simpl; [| | done].
  { by case_bool_decide. }
  case_bool_decide as Hsame; simpl; [done |].
  destruct (store default_mode dst data w) as [[e | []] w1] eqn:Hstore; simpl; [done |].
  intros [= <-]. apply store_returns in Hstore as (mode' & -> & _ & Hdst).
  exists data, mode, mode'. split_and!; [done | done | done |].
  unfold stat, node_at. simpl. apply String.eqb_neq in Hdst. rewrite Hdst.
  case_decide; [by eexists |]. rewrite lookup_insert_eq. by eexists.
Qed.

Lemma copyfile_extends src dst w : extends w (copyfile default_mode src dst w).2.
Proof.
  unfold copyfile, mbind, M_bind, bind. simpl.
  destruct (stat w src) as [[|data mode] |]; simpl; [| | done].
  { by case_bool_decide. }
  case_bool_decide; simpl; [done |].
  pose proof (store_extends dst data w) as Hs.
  destruct (store default_mode dst data w) as [[e | []] w1]; simpl in *; [done |].
  etrans; [exact Hs | apply extends_log].
Qed.

(** Copying a file onto a different file with the same text changes the
    trace only. *)
Lemma copyfile_same_text src dst w data mode mode' :
  stat w src = Some (File data mode) -> stat w dst = Some (File data mode') ->
  resolve (pwd w) src <> resolve (pwd w) dst ->
  copyfile default_mode src dst w = (inr tt, log (EvCopy src dst) w).
Proof.
  intros Hsrc Hdst Hne. unfold copyfile, mbind, M_bind, bind. simpl. rewrite Hsrc.
  rewrite bool_decide_eq_false_2 by (by intros [_ ?]). simpl.
  unfold store, mbind, M_bind, bind. simpl.
  assert (Hq : String.eqb dst "" = false).
  { unfold stat in Hdst. by destruct (String.eqb dst ""). }
  rewrite Hq, Hdst. simpl. do 2 f_equal. unfold set_files.
  rewrite insert_id by (by apply stat_File_lookup). by destruct w.
Qed.

Lemma mkdir_extends q w : extends w (mkdir q w).2.
Proof.
  destruct (mkdir q w) as [r w'] eqn:Hm. revert Hm.
  unfold mkdir, mbind, M_bind, bind. simpl.
  destruct (stat w q); simpl; [by intros [= _ <-] |].
  destruct (String.eqb q ""); [by intros [= _ <-] |].
  unfold parent_dir.
  destruct (node_at (files w) (removelast (resolve (pwd w) q))) as [[|? ?] |];
    simpl; [| by intros [= _ <-] | by intros [= _ <-]].
  intros [= _ <-]. simpl. etrans; [| apply extends_log]. by apply extends_insert.
Qed.

Lemma mkdir_returns q w w' : mkdir q w = (inr tt, w') -> stat w' q = Some Dir.
Proof.
  unfold mkdir, mbind, M_bind, bind. simpl.
  destruct (stat w q) eqn:Hs; simpl; [done |].
  destruct (String.eqb q "") eqn:Hq; [done |].
  unfold parent_dir.
  destruct (node_at (files w) (removelast (resolve (pwd w) q))) as [[|? ?] |];
    simpl; [| done | done].
  intros [= <-]. unfold stat, node_at. simpl. rewrite Hq.
  case_decide; [done |]. by rewrite lookup_insert_eq.
Qed.

Lemma chmod_extends q mode w : extends w (chmod q mode w).2.
Proof.
  unfold chmod, mbind, M_bind, bind. simpl.
  destruct (stat w q) as [[|data old] |] eqn:Hs; simpl; [apply extends_log | | done].
  etrans; [| apply extends_log]. apply extends_insert.
  by rewrite (stat_File_lookup _ _ _ _ Hs).
Qed.

End Writing.

(** ** Setting up twice *)

Section Staging.
Variable default_mode : Z.

(** The first pass of the loop over the static files, when it returns:
    the working directory is not the static directory if there is any
    [.CDE] file, each such file is now in the working directory with
    the text it has in the static directory, and nothing else changed. *)
Lemma copy_loop_returns static p l w w' :
  Forall (fun f => name_ok f = true) l ->
  for_each l (copy_static default_mode static p) w = (inr tt, w') ->
  let ks := resolve (pwd w) static in
  let k := resolve (pwd w) p in
  extends w w'
  /\ (forall key, (forall f, f ∈ l -> endswith f ".CDE" = true -> key <> k ++ [f]) ->
        files w' !! key = files w !! key)
  /\ (forall f, f ∈ l -> endswith f ".CDE" = true ->
        ks <> k
        /\ exists data mode mode',
             files w !! (ks ++ [f]) = Some (File data mode)
             /\ files w' !! (k ++ [f]) = Some (File data mode')).
Proof.
  intros Hl. revert w. induction Hl as [|f l Hf Hl IH]; intros w; simpl.
  { intros [= <-]. split_and!; [done | done |]. by intros f ?%elem_of_nil. }
  intros [(e & _ & ?) | ([] & w1 & Hbody & Hrest)]%bind_inv; [done |].
  unfold copy_static in Hbody at 1. destruct (endswith f ".CDE") eqn:Hcde.
  - pose proof (copyfile_extends default_mode (path_join static f) (path_join p f) w)
      as Hstep.
    rewrite Hbody in Hstep. simpl in Hstep.
    apply copyfile_returns in Hbody as (data & mode & mode' & Hsrc & Hsame & Hw1 & _).
    rewrite stat_join in Hsrc by done. rewrite stat_join, !resolve_join in Hsame by done.
    rewrite resolve_join in Hw1 by done.
    set (ks := resolve (pwd w) static) in *. set (k := resolve (pwd w) p) in *.
    assert (Hne : ks <> k).
    { intros Heq. apply Hsame. rewrite <- Heq. by split; [eexists |]. }
    assert (Hpwd : pwd w1 = pwd w) by (by rewrite Hw1).
    apply IH in Hrest as (Hext & Hother & Hfacts). rewrite Hpwd in Hother, Hfacts.
    fold ks k in Hother, Hfacts.
    assert (Hw1_lookup : forall key, key <> k ++ [f] -> files w1 !! key = files w !! key).
    { intros key Hkey. rewrite Hw1. simpl. by rewrite lookup_insert_ne. }
    assert (Hstatic : forall g, files w1 !! (ks ++ [g]) = files w !! (ks ++ [g])).
    { intros g. apply Hw1_lookup. intros Heq. by apply app_inj_tail in Heq as [? _]. }
    split_and!.
    + by etrans.
    + intros key Hkey. rewrite Hother.
      * apply Hw1_lookup. apply Hkey; [apply elem_of_cons; by left | done].
      * intros g Hg. apply Hkey, elem_of_cons. by right.
    + intros g [-> | Hg]%elem_of_cons Hgc.
      * split; [done |]. exists data, mode.
        destruct (decide (f ∈ l)) as [Hin | Hnotin].
        -- destruct (Hfacts f Hin Hcde) as (_ & data2 & mode2 & mode2' & Hs2 & Hd2).
           rewrite Hstatic in Hs2. exists mode2'. split; [done |]. congruence.
        -- exists mode'. split; [done |]. rewrite Hother.
           ++ rewrite Hw1. simpl. by rewrite lookup_insert_eq.
           ++ intros g Hg _ Heq. apply app_inj_tail in Heq as [_ ->]. done.
      * destruct (Hfacts g Hg Hgc) as (_ & data2 & mode2 & mode2' & Hs2 & Hd2).
        split; [done |]. exists data2, mode2, mode2'. by rewrite <- Hstatic.
  - injection Hbody as <-. apply IH in Hrest as (Hext & Hother & Hfacts).
    split_and!; [done | |].
    + intros key Hkey. apply Hother. intros g Hg. apply Hkey, elem_of_cons. by right.
    + intros g [-> | Hg]%elem_of_cons Hgc; [congruence | by apply Hfacts].
Qed.

(** A later pass over files that are already copied changes the trace
    only. *)
Lemma copy_loop_again static p l w :
  let ks := resolve (pwd w) static in
  let k := resolve (pwd w) p in
  (forall f, f ∈ l -> endswith f ".CDE" = true ->
     name_ok f = true /\ ks <> k
     /\ exists data mode mode',
          files w !! (ks ++ [f]) = Some (File data mode)
          /\ files w !! (k ++ [f]) = Some (File data mode')) ->
  exists evs,
    for_each l (copy_static default_mode static p) w
    = (inr tt, mkWorld (files w) (pwd w) (trace w ++ evs) (draws w))
    /\ Forall (fun ev => exists f, name_ok f = true /\ endswith f ".CDE" = true
                                   /\ ev = EvCopy (path_join static f) (path_join p f))
              evs.
Proof.
  intros ks k. revert w ks k. induction l as [|f l IH]; intros w ks k Hfacts; simpl.
  { exists []. rewrite app_nil_r. by destruct w. }
  destruct (endswith f ".CDE") eqn:Hcde.
  - destruct (Hfacts f) as (Hf & Hne & data & mode & mode' & Hsrc & Hdst);
      [apply elem_of_cons; by left | done |].
    assert (Hcopy : copy_static default_mode static p f w
                    = (inr tt, log (EvCopy (path_join static f) (path_join p f)) w)).
    { unfold copy_static. rewrite Hcde.
      apply (copyfile_same_text default_mode _ _ _ data mode mode').
      - by rewrite stat_join.
      - by rewrite stat_join.
      - rewrite !resolve_join by done. intros Heq. by apply app_inj_tail in Heq as [? _]. }
    rewrite (bind_inr _ _ _ _ _ Hcopy).
    destruct (IH (log (EvCopy (path_join static f) (path_join p f)) w)) as (evs & Hloop & Hevs).
    { intros g Hg Hgc. apply Hfacts; [apply elem_of_cons; by right | done]. }
    exists (EvCopy (path_join static f) (path_join p f) :: evs). split.
    + rewrite Hloop. simpl. by rewrite <- app_assoc.
    + constructor; [by exists f | done].
  - assert (Hskip : copy_static default_mode static p f w = (inr tt, w)).
    { unfold copy_static. by rewrite Hcde. }
    rewrite (bind_inr _ _ _ _ _ Hskip). apply IH.
    intros g Hg Hgc. apply Hfacts; [apply elem_of_cons; by right | done].
Qed.

Lemma with_RUN_PATH_same p d : _RUN_PATH d = Some p -> with_RUN_PATH p d = d.
Proof. destruct d. simpl. by intros ->. Qed.

Lemma with_SETUP_same d : _SETUP d = true -> with_SETUP true d = d.
Proof. destruct d. simpl. by intros ->. Qed.

Lemma sys_path_exists q h :
  sys (path_exists q) h = (inr (bool_decide (is_Some (stat (os h) q))), h).
Proof. unfold sys, path_exists, mbind, M_bind, bind. simpl. by destruct h. Qed.

Lemma sys_extends {A} (c : OS A) h :
  (forall w, extends w (c w).2) ->
  self (sys c h).2 = self h /\ management (sys c h).2 = management h
  /\ extends (os h) (os (sys c h).2).
Proof. intros Hc. unfold sys. simpl. split_and!; [done | done | apply Hc]. Qed.

End Staging.

Section SetupTwice.
Variable default_mode : Z.
Variable TMP_BASE : string.
Variable rand_index : nat -> nat.

Lemma make_run_path_returns p h ha :
  p <> "" -> make_run_path TMP_BASE rand_index (Some p) h = (inr tt, ha) ->
  self ha = with_RUN_PATH p (self h) /\ management ha = management h
  /\ extends (os h) (os ha) /\ is_Some (stat (os ha) p).
Proof.
  intros Hp. apply String.eqb_neq in Hp. unfold make_run_path, given. rewrite Hp.
  set (h0 := set_self (with_RUN_PATH p) h).
  assert (Hmod : modify (set_self (with_RUN_PATH p)) h = (inr tt, h0)) by done.
  rewrite (bind_inr _ _ _ _ _ Hmod).
  rewrite (bind_inr _ _ _ _ _ (RUN_PATH_get h0 p eq_refl)).
  rewrite (bind_inr _ _ _ _ _ (sys_path_exists p h0)).
  case_bool_decide as Hpresent; simpl.
  - intros [= <-]. by split_and!.
  - intros Hmk. pose proof (sys_extends (mkdir p) h0 (mkdir_extends p)) as (Hs & Hm & He).
    rewrite Hmk in Hs, Hm, He. simpl in *. split_and!; try done.
    revert Hmk. unfold sys. simpl.
    destruct (mkdir p (os h)) as [[e | []] w'] eqn:Hmkdir; simpl; [done |].
    intros [= <-]. simpl. rewrite (mkdir_returns _ _ _ Hmkdir). by eexists.
Qed.

Lemma make_run_path_again p h :
  p <> "" -> _RUN_PATH (self h) = Some p -> is_Some (stat (os h) p) ->
  make_run_path TMP_BASE rand_index (Some p) h = (inr tt, h).
Proof.
  intros Hp Hpath Hstat. apply String.eqb_neq in Hp. unfold make_run_path, given.
  rewrite Hp.
  assert (Hmod : modify (set_self (with_RUN_PATH p)) h = (inr tt, h)).
  { unfold modify, set_self. rewrite with_RUN_PATH_same by done. by destruct h. }
  rewrite (bind_inr _ _ _ _ _ Hmod).
  rewrite (bind_inr _ _ _ _ _ (RUN_PATH_get h p Hpath)).
  rewrite (bind_inr _ _ _ _ _ (sys_path_exists p h)).
  by rewrite bool_decide_eq_true_2.
Qed.

(** What [move_files] has done when it returns. *)
Lemma move_files_returns p h hb :
  _RUN_PATH (self h) = Some p -> move_files default_mode h = (inr tt, hb) ->
  let binary := path_join p (basename (_BIN_PATH (self h))) in
  let static := _STATIC_PATH (self h) in
  exists wb,
    self hb = self h /\ management hb = management h
    /\ extends (os h) wb
    /\ is_Some (stat wb binary)
    /\ stat wb static = Some Dir
    /\ for_each (children (files wb) (resolve (pwd wb) static))
                (copy_static default_mode static p) wb
       = (inr tt, os hb).
Proof.
  intros Hpath. unfold move_files.
  assert (Hget : (get : M Heap Heap) h = (inr h, h)) by done.
  rewrite (bind_inr _ _ _ _ _ Hget).
  rewrite (bind_inr _ _ _ _ _ (RUN_PATH_get h p Hpath)).
  rewrite (bind_inr _ _ _ _ _ (sys_path_exists _ h)).
  intros [(e & _ & ?) | ([] & h1 & Hbin & Hrest)]%bind_inv; [done |].
  assert (Hh1 : self h1 = self h /\ management h1 = management h
                /\ extends (os h) (os h1)
                /\ is_Some (stat (os h1) (path_join p (basename (_BIN_PATH (self h)))))).
  { revert Hbin. case_bool_decide as Hpresent; simpl.
    - intros [= <-]. by split_and!.
    - intros [(e & _ & ?) | ([] & h2 & Hcopy & Hchmod)]%bind_inv; [done |].
      pose proof (sys_extends _ h (copyfile_extends default_mode (_BIN_PATH (self h))
                    (path_join p (basename (_BIN_PATH (self h)))))) as (Hs2 & Hm2 & He2).
      rewrite Hcopy in Hs2, Hm2, He2. simpl in *.
      pose proof (sys_extends _ h2 (chmod_extends (path_join p (basename (_BIN_PATH (self h))))
                    111)) as (Hs1 & Hm1 & He1).
      rewrite Hchmod in Hs1, Hm1, He1. simpl in *.
      split_and!; [congruence | congruence | by etrans |].
      apply (extends_stat_Some _ _ _ He1).
      revert Hcopy. unfold sys. simpl.
      destruct (copyfile _ _ _ (os h)) as [[e | []] w2] eqn:Hc; simpl; [done |].
      intros [= <-]. simpl.
      by apply copyfile_returns in Hc as (data & mode & mode' & _ & _ & _ & Hdst). }
  destruct Hh1 as (Hs1 & Hm1 & He1 & Hb1).
  revert Hrest. pose proof (sys_listdir h1 (_STATIC_PATH (self h))) as Hlist.
  destruct (stat (os h1) (_STATIC_PATH (self h))) as [[|data mode] |] eqn:Hstat.
  2, 3: by rewrite (bind_inl _ _ _ _ _ Hlist).
  rewrite (bind_inr _ _ _ _ _ Hlist).
  rewrite (for_each_sys _ (copy_static default_mode (_STATIC_PATH (self h)) p)).
  unfold sys.
  destruct (for_each _ _ (os h1)) as [r w'] eqn:Hloop. simpl. intros [= -> <-].
  exists (os h1). simpl. by split_and!.
Qed.

Lemma move_files_again p h w' :
  _RUN_PATH (self h) = Some p ->
  let binary := path_join p (basename (_BIN_PATH (self h))) in
  let static := _STATIC_PATH (self h) in
  is_Some (stat (os h) binary) -> stat (os h) static = Some Dir ->
  for_each (children (files (os h)) (resolve (pwd (os h)) static))
           (copy_static default_mode static p) (os h)
  = (inr tt, w') ->
  move_files default_mode h = (inr tt, mkHeap (self h) (management h) w').
Proof.
  intros Hpath binary static Hbin Hstatic Hloop. unfold move_files.
  assert (Hget : (get : M Heap Heap) h = (inr h, h)) by done.
  rewrite (bind_inr _ _ _ _ _ Hget).
  rewrite (bind_inr _ _ _ _ _ (RUN_PATH_get h p Hpath)).
  rewrite (bind_inr _ _ _ _ _ (sys_path_exists _ h)).
  rewrite bool_decide_eq_true_2 by done. simpl.
  assert (Hskip : (ret tt : M Heap unit) h = (inr tt, h)) by done.
  rewrite (bind_inr _ _ _ _ _ Hskip).
  pose proof (sys_listdir h static) as Hlist. rewrite Hstatic in Hlist.
  rewrite (bind_inr _ _ _ _ _ Hlist).
  rewrite (for_each_sys _ (copy_static default_mode static p)).
  unfold sys. by rewrite Hloop.
Qed.

(** C8: after a [setup] on the path [p] has returned, a second [setup] on
    [p] returns too and leaves the file tree, the environment and the
    management plan exactly as the first left them: the engine binary is
    found in the working directory and is neither copied nor has its
    mode set again, no directory is made, and the only calls are copies
    of the static [.CDE] files onto the copies that are already there, with
    the same text, so that none is duplicated. *)
Theorem setup_twice p overwrite1 overwrite2 h h1 :
  p <> "" -> wf_world (os h) ->
  _BIN_PATH (self h) = path_join (path_join (_STATIC_PATH (self h)) "bin") "dscsm048" ->
  setup default_mode TMP_BASE rand_index (Some p) overwrite1 h = (inr tt, h1) ->
  exists evs,
    setup default_mode TMP_BASE rand_index (Some p) overwrite2 h1
    = (inr tt,
       mkHeap (self h1) (management h1)
              (mkWorld (files (os h1)) (pwd (os h1)) (trace (os h1) ++ evs)
                       (draws (os h1))))
    /\ Forall (fun ev => exists f, endswith f ".CDE" = true
                                   /\ ev = EvCopy (path_join (_STATIC_PATH (self h)) f)
                                                  (path_join p f)) evs
    /\ (forall dst, EvCopy (_BIN_PATH (self h)) dst ∉ evs).
Proof.
  intros Hp Hwf Hbinpath Hsetup. unfold setup in Hsetup.
  apply bind_inv in Hsetup as [(e & _ & ?) | ([] & ha & Hmake & Hsetup)]; [done |].
  apply bind_inv in Hsetup as [(e & _ & ?) | ([] & hb & Hmove & Hflag)]; [done |].
  injection Hflag as <-.
  apply (make_run_path_returns p h ha Hp) in Hmake as (Hsa & Hma & Hea & Hpa).
  assert (Hpath_a : _RUN_PATH (self ha) = Some p) by (by rewrite Hsa).
  apply (move_files_returns p ha hb Hpath_a) in Hmove
    as (wb & Hsb & Hmb & Heb & Hbin_b & Hstatic_b & Hloop).
  rewrite Hsa in Hbin_b, Hstatic_b, Hloop. simpl in Hbin_b, Hstatic_b, Hloop.
  set (static := _STATIC_PATH (self h)) in *.
  set (binary := path_join p (basename (_BIN_PATH (self h)))) in *.
  assert (Hext_b : extends (os h) wb) by (by etrans).
  assert (Hwf_b : wf_world wb) by (by apply Hext_b).
  set (names := children (files wb) (resolve (pwd wb) static)) in *.
  assert (Hnames : Forall (fun f => name_ok f = true) names).
  { apply Forall_forall. intros f Hf. eapply children_ok; [apply Hwf_b | exact Hf]. }
  destruct (copy_loop_returns default_mode static p names wb (os hb) Hnames Hloop)
    as (Hext & Hother & Hfacts).
  assert (Hpwd : pwd (os hb) = pwd wb) by apply Hext.
  set (ks := resolve (pwd wb) static) in *. set (k := resolve (pwd wb) p) in *.
  (* the second pass of the loop *)
  destruct (copy_loop_again default_mode static p
              (children (files (os hb)) (resolve (pwd (os hb)) static)) (os hb))
    as (evs & Hagain & Hevs).
  { rewrite Hpwd. fold ks k. intros f [x Hx]%elem_of_children Hcde.
    assert (Hin : f ∈ names).
    { apply elem_of_children. fold ks.
      destruct (files wb !! (ks ++ [f])) as [y |] eqn:Hy; [by eexists |].
      rewrite Hother in Hx; [congruence |].
      intros g Hg Hgc Heq. apply app_inj_tail in Heq as [Heq _].
      by destruct (Hfacts g Hg Hgc) as [Hne _]. }
    destruct (Hfacts f Hin Hcde) as (Hne & data & mode & mode' & Hsrc & Hdst).
    split_and!; [by eapply children_ok; [apply Hwf_b | exact Hin] | done |].
    exists data, mode, mode'. split; [| done].
    rewrite Hother; [done |]. intros g _ _ Heq. by apply app_inj_tail in Heq as [? _]. }
  exists evs.
  set (h1 := set_self (with_SETUP true) hb) in *.
  assert (Hpath1 : _RUN_PATH (self h1) = Some p) by (simpl; by rewrite Hsb, Hsa).
  assert (Hos1 : os h1 = os hb) by done.
  split_and!.
  - unfold setup.
    rewrite (bind_inr _ _ _ _ _ (make_run_path_again p h1 Hp Hpath1
               ltac:(rewrite Hos1; apply (extends_stat_Some wb); [done |];
                     apply (extends_stat_Some (os ha)); done))).
    assert (Hself1 : _STATIC_PATH (self h1) = static /\ _BIN_PATH (self h1) = _BIN_PATH (self h))
      by (simpl; by rewrite Hsb, Hsa).
    destruct Hself1 as [Hst1 Hbp1].
    rewrite (bind_inr _ _ _ _ _
               (move_files_again p h1 _ Hpath1
                  ltac:(rewrite Hbp1, Hos1; by apply (extends_stat_Some wb))
                  ltac:(rewrite Hst1, Hos1; by apply (extends_stat_Dir wb))
                  ltac:(rewrite Hst1, Hos1; exact Hagain))).
    unfold modify, set_self. simpl. rewrite with_SETUP_same by done. done.
  - eapply Forall_impl; [exact Hevs |]. intros ev (f & _ & Hcde & ->). by exists f.
  - intros dst Hin. rewrite Forall_forall in Hevs.
    destruct (Hevs _ Hin) as (f & Hf & Hcde & [= Hsrc _]).
    apply (f_equal basename) in Hsrc. rewrite Hbinpath in Hsrc.
    rewrite !basename_join in Hsrc by done. by subst f.
Qed.

End SetupTwice.

(** ** The theorems at work in the sample world *)

Lemma run_requires_setup_witness :
  Sample.run 0 Sample.called = (inl (AssertionError SETUP_MESSAGE), Sample.called).
Proof.
  assert (Hcalls : Sample.history Sample.calls Sample.heap = (false, Sample.called))
    by (vm_compute; reflexivity).
  unfold Sample.history, Sample.heap in Hcalls. unfold Sample.run.
  exact (@run_requires_setup Sample.mode "/tmp" (fun n => n) Sample.write_management
           Sample.write_crop Sample.write_soil Sample.write_weather (Sample.engine 0)
           Sample.parse "/pkg" Sample.plan Sample.world Sample.calls Sample.called
           Sample.soil Sample.weather Sample.crop Hcalls).
Defined.

Lemma initial_water_content_witness :
  exists i, ICBL (mkTable [5; 30] [0.25%float; 0.375%float] [0%float; 0%float]
                          [1%float; 0%float]) !! i = Some 30
            /\ SH2O (mkTable [5; 30] [0.25%float; 0.375%float] [0%float; 0%float]
                             [1%float; 0%float]) !! i
               = Some (SLLL (mkLayer 0.25 0.5) + 0.5 * (SDUL (mkLayer 0.25 0.5)
                                                       - SLLL (mkLayer 0.25 0.5)))%float.
Proof.
  assert (Htable : initial_conditions_table Sample.soil 0.5
                   = inr (mkTable [5; 30] [0.25%float; 0.375%float] [0%float; 0%float]
                                  [1%float; 0%float]))
    by (vm_compute; reflexivity).
  assert (Hlayer : (30, mkLayer 0.25 0.5) ∈ layers Sample.soil)
    by (apply elem_of_cons; by left).
  exact (proj1 (initial_water_content Sample.soil 0.5 _ Htable) 30 (mkLayer 0.25 0.5) Hlayer).
Defined.

Lemma initial_conditions_table_nitrate_witness :
  exists t, initial_conditions_table Sample.soil 0.5 = inr t
            /\ SNO3 t !! 0%nat = Some 1%float.
Proof.
  assert (H : layers Sample.soil <> []) by (vm_compute; discriminate).
  destruct (initial_conditions_table_nitrate Sample.soil 0.5 H)
    as (t & Ht & _ & _ & _ & _ & _ & _ & Hfirst & _).
  exists t. split; [exact Ht | exact Hfirst].
Defined.


Lemma run_checks_returncode_witness :
  Sample.run 3 Sample.staged
  = (inl (AssertionError (EXECUTION_MESSAGE "/tmp/ws")),
     mkHeap (self Sample.written) (management Sample.written) Sample.failed).
Proof.
  assert (Hflag : _SETUP (self Sample.staged) = true) by (vm_compute; reflexivity).
  assert (Hrm : remove_previous_outputs Sample.staged = (inr tt, Sample.cleaned))
    by (vm_compute; reflexivity).
  assert (Hfill : fill_management Sample.soil Sample.weather Sample.crop Sample.cleaned
                  = (inr tt, Sample.filled))
    by (vm_compute; reflexivity).
  assert (Hwrite : @write_inputs Sample.mode Sample.write_management Sample.write_crop
                     Sample.write_soil Sample.write_weather Sample.soil Sample.weather
                     Sample.crop Sample.filled
                   = (inr "/tmp/ws/DPOE2301.MZX", Sample.written))
    by (vm_compute; reflexivity).
  assert (Hpath : _RUN_PATH (self Sample.written) = Some "/tmp/ws")
    by (vm_compute; reflexivity).
  assert (Hengine : Sample.engine 3 [_BIN_PATH (self Sample.written); "C";
                                     basename "/tmp/ws/DPOE2301.MZX"; "1"] "/tmp/ws"
                      (os Sample.written)
                    = (inr 3, Sample.failed))
    by (vm_compute; reflexivity).
  assert (Hcode : 3 <> 0) by discriminate.
  unfold Sample.run.
  exact (proj1 (@run_checks_returncode Sample.mode Sample.write_management
                  Sample.write_crop Sample.write_soil Sample.write_weather
                  (Sample.engine 3) Sample.parse Sample.soil Sample.weather Sample.crop
                  Sample.staged Sample.cleaned Sample.filled Sample.written "/tmp/ws"
                  "/tmp/ws/DPOE2301.MZX" 3 Sample.failed
                  Hflag Hrm Hfill Hwrite Hpath Hengine) Hcode).
Defined.



Lemma setup_twice_witness :
  exists evs,
    Sample.setup (Some "/tmp/ws") Sample.staged
    = (inr tt,
       mkHeap (self Sample.staged) (management Sample.staged)
              (mkWorld (files (os Sample.staged)) (pwd (os Sample.staged))
                       (trace (os Sample.staged) ++ evs) (draws (os Sample.staged))))
    /\ forall dst, EvCopy (_BIN_PATH (self Sample.heap)) dst ∉ evs.
Proof.
  assert (Hp : "/tmp/ws" <> "") by discriminate.
  assert (Hwf : wf_world (os Sample.heap))
    by (refine (bool_decide_unpack _ _); vm_compute; exact I).
  assert (Hbinary : _BIN_PATH (self Sample.heap)
                    = path_join (path_join (_STATIC_PATH (self Sample.heap)) "bin") "dscsm048")
    by (vm_compute; reflexivity).
  assert (Hfirst : setup Sample.mode "/tmp" (fun n => n) (Some "/tmp/ws") false Sample.heap
                   = (inr tt, Sample.staged))
    by (vm_compute; reflexivity).
  destruct (setup_twice Sample.mode "/tmp" (fun n => n) "/tmp/ws" false false
              Sample.heap Sample.staged Hp Hwf Hbinary Hfirst)
    as (evs & Hagain & _ & Hnever).
  exists evs. unfold Sample.setup. split; [exact Hagain | exact Hnever].
Defined.

Lemma close_keeps_environment_witness :
  self Sample.closed = self Sample.staged
  /\ Sample.run 0 Sample.closed = (inl (FileNotFoundError "/tmp/ws"), Sample.closed).
Proof.
  assert (Hflag : _SETUP (self Sample.staged) = true) by (vm_compute; reflexivity).
  assert (Hpath : _RUN_PATH (self Sample.staged) = Some "/tmp/ws")
    by (vm_compute; reflexivity).
  assert (Hclose : close Sample.staged = (inr tt, Sample.closed))
    by (vm_compute; reflexivity).
  assert (Hplace : resolve (pwd (os Sample.staged)) "/tmp/ws" <> [])
    by (vm_compute; discriminate).
  destruct (@close_keeps_environment Sample.mode Sample.write_management Sample.write_crop
              Sample.write_soil Sample.write_weather (Sample.engine 0) Sample.parse
              Sample.staged "/tmp/ws" (inr tt) Sample.closed Hflag Hpath Hclose)
    as (Hself & _ & _ & _ & _ & _ & Hrun).
  split; [exact Hself |]. unfold Sample.run.
  exact (Hrun eq_refl Hplace Sample.soil Sample.weather Sample.crop).
Defined.

(** ** More on [setup] *)

Section SetupMore.
Variable default_mode : Z.
Variable TMP_BASE : string.
Variable rand_index : nat -> nat.

(** Whatever [make_run_path] does after recording the path leaves the
    environment and the plan alone. *)
Lemma make_run_path_records p h r h1 :
  p <> "" -> make_run_path TMP_BASE rand_index (Some p) h = (r, h1) ->
  self h1 = with_RUN_PATH p (self h) /\ management h1 = management h.
Proof.
  intros Hp. apply String.eqb_neq in Hp. unfold make_run_path, given. rewrite Hp.
  set (h0 := set_self (with_RUN_PATH p) h).
  assert (Hmod : modify (set_self (with_RUN_PATH p)) h = (inr tt, h0)) by done.
  rewrite (bind_inr _ _ _ _ _ Hmod). intros Hrest.
  assert (Hk : keeps (unchanged (fun h => (self h, management h)))
                 (run_path ← RUN_PATH;
                  present ← sys (path_exists run_path);
                  if negb present then sys (mkdir run_path) else ret tt))
    by keeps_all.
  specialize (Hk h0). rewrite Hrest in Hk. unfold unchanged in Hk. simpl in Hk.
  by injection Hk as -> ->.
Qed.

(** What a [setup] on a path leaves when it raises. *)
Lemma setup_raises_records p overwrite h e h1 :
  p <> "" ->
  setup default_mode TMP_BASE rand_index (Some p) overwrite h = (inl e, h1) ->
  _RUN_PATH (self h1) = Some p
  /\ _SETUP (self h1) = _SETUP (self h)
  /\ output (self h1) = output (self h)
  /\ management h1 = management h.
Proof.
  intros Hp Hsetup. unfold setup in Hsetup.
  apply bind_inv in Hsetup as [(e1 & Hmake & _) | ([] & ha & Hmake & Hsetup)].
  { apply (make_run_path_records p h _ h1 Hp) in Hmake as [-> ->]. by destruct (self h). }
  apply (make_run_path_records p h _ ha Hp) in Hmake as [Hsa Hma].
  apply bind_inv in Hsetup as [(e1 & Hmove & _) | ([] & hb & Hmove & Hflag)]; [| done].
  pose proof (move_files_keeps_self default_mode ha) as Hk. rewrite Hmove in Hk.
  unfold unchanged in Hk. simpl in Hk. injection Hk as -> ->.
  rewrite Hsa, Hma. by destruct (self h).
Qed.


(** X1: What a [setup] on a path has put in place when it returns: the flag
    is set and the path recorded; nothing that was in the file tree is gone;
    the path and the engine binary under it exist; and every entry of the
    static directory whose name ends in [.CDE] is a file that has a copy
    with the same text under the path, which is then not the static
    directory itself. *)
Theorem setup_stages p overwrite h h1 :
  p <> "" -> wf_world (os h) ->
  setup default_mode TMP_BASE rand_index (Some p) overwrite h = (inr tt, h1) ->
  let static := _STATIC_PATH (self h) in
  let ks := resolve (pwd (os h)) static in
  let k := resolve (pwd (os h)) p in
  _SETUP (self h1) = true
  /\ _RUN_PATH (self h1) = Some p
  /\ output (self h1) = output (self h)
  /\ management h1 = management h
  /\ extends (os h) (os h1)
  /\ is_Some (stat (os h1) p)
  /\ is_Some (stat (os h1) (path_join p (basename (_BIN_PATH (self h)))))
  /\ stat (os h1) static = Some Dir
  /\ (forall f, endswith f ".CDE" = true -> is_Some (files (os h1) !! (ks ++ [f])) ->
        ks <> k
        /\ exists data mode mode',
             files (os h1) !! (ks ++ [f]) = Some (File data mode)
             /\ files (os h1) !! (k ++ [f]) = Some (File data mode')).
Proof.
  intros Hp Hwf Hsetup static ks k. unfold setup in Hsetup.
  apply bind_inv in Hsetup as [(e & _ & ?) | ([] & ha & Hmake & Hsetup)]; [done |].
  apply bind_inv in Hsetup as [(e & _ & ?) | ([] & hb & Hmove & Hflag)]; [done |].
  injection Hflag as <-.
  apply (make_run_path_returns TMP_BASE rand_index p h ha Hp) in Hmake
    as (Hsa & Hma & Hea & Hpa).
  assert (Hpath_a : _RUN_PATH (self ha) = Some p) by (by rewrite Hsa).
  apply (move_files_returns default_mode p ha hb Hpath_a) in Hmove
    as (wb & Hsb & Hmb & Heb & Hbin_b & Hstatic_b & Hloop).
  rewrite Hsa in Hbin_b, Hstatic_b, Hloop. simpl in Hbin_b, Hstatic_b, Hloop.
  fold static in Hstatic_b, Hloop.
  assert (Hext_b : extends (os h) wb) by (by etrans).
  assert (Hwf_b : wf_world wb) by (by apply Hext_b).
  assert (Hpwd_b : pwd wb = pwd (os h)) by apply Hext_b.
  rewrite Hpwd_b in Hloop. fold ks in Hloop.
  assert (Hnames : Forall (fun f => name_ok f = true) (children (files wb) ks)).
  { apply Forall_forall. intros f Hf. eapply children_ok; [apply Hwf_b | exact Hf]. }
  destruct (copy_loop_returns default_mode static p _ wb (os hb) Hnames Hloop)
    as (Hext & Hother & Hfacts).
  rewrite Hpwd_b in Hother, Hfacts. fold ks k in Hother, Hfacts.
  simpl. split_and!.
  - done.
  - by rewrite Hsb, Hsa.
  - rewrite Hsb, Hsa. by destruct (self h).
  - congruence.
  - by etrans.
  - apply (extends_stat_Some wb); [done |]. by apply (extends_stat_Some (os ha)).
  - by apply (extends_stat_Some wb).
  - by apply (extends_stat_Dir wb).
  - intros f Hcde [x Hx].
    assert (Hin : f ∈ children (files wb) ks).
    { apply elem_of_children.
      destruct (files wb !! (ks ++ [f])) as [y |] eqn:Hy; [by eexists |].
      rewrite Hother in Hx; [congruence |].
      intros g Hg Hgc Heq. apply app_inj_tail in Heq as [Heq _].
      by destruct (Hfacts g Hg Hgc) as [Hne _]. }
    destruct (Hfacts f Hin Hcde) as (Hne & data & mode & mode' & Hsrc & Hdst).
    split; [done |]. exists data, mode, mode'. split; [| done].
    rewrite Hother; [done |]. intros g _ _ Heq. by apply app_inj_tail in Heq as [? _].
Qed.

Lemma mkdir_exists q w x : stat w q = Some x -> mkdir q w = (inl (FileExistsError q), w).
Proof. intros Hx. unfold mkdir, mbind, M_bind, bind. simpl. by rewrite Hx. Qed.

Lemma mkdir_returns_absent q w w' : mkdir q w = (inr tt, w') -> stat w q = None.
Proof.
  unfold mkdir, mbind, M_bind, bind. simpl. by destruct (stat w q).
Qed.

Lemma ascii_lowercase_lowercase : Forall (fun c => is_lowercase c = true) ascii_lowercase.
Proof. by repeat constructor. Qed.

Lemma length_string_of_list_ascii (l : list ascii) :
  String.length (string_of_list_ascii l) = length l.
Proof. induction l as [|c l IH]; simpl; [done | by rewrite IH]. Qed.

(** What [random_name] returns: [k] lower-case letters, [k] numbers drawn. *)
Lemma random_name_returns k w :
  exists name,
    random_name rand_index k w = (inr name, tick k w)
    /\ String.length name = k
    /\ Forall (fun c => is_lowercase c = true) (list_ascii_of_string name).
Proof.
  eexists. split; [reflexivity |]. split.
  - by rewrite length_string_of_list_ascii, length_map, length_seq.
  - rewrite list_ascii_of_string_of_list_ascii. apply Forall_forall.
    intros c Hc. apply list_elem_of_fmap in Hc as (i & -> & _).
    pose proof ascii_lowercase_lowercase as Hall. rewrite Forall_forall in Hall.
    apply Hall. apply list_elem_of_In. apply nth_In.
    change (length ascii_lowercase) with 26%nat. apply Nat.mod_upper_bound. done.
Qed.

(** What [setup] does without a path. *)
Lemma setup_without_path cwd overwrite h r h1 :
  given cwd = None ->
  setup default_mode TMP_BASE rand_index cwd overwrite h = (r, h1) ->
  exists name,
    String.length name = 8%nat
    /\ Forall (fun c => is_lowercase c = true) (list_ascii_of_string name)
    /\ _RUN_PATH (self h1) = Some (path_join TMP_BASE name)
    /\ (r = inr tt -> stat (os h) (path_join TMP_BASE name) = None)
    /\ (is_Some (stat (os h) (path_join TMP_BASE name)) ->
        r = inl (FileExistsError (path_join TMP_BASE name))
        /\ files (os h1) = files (os h)
        /\ trace (os h1) = trace (os h)
        /\ _SETUP (self h1) = _SETUP (self h)).
Proof.
  intros Hgiven Hsetup.
  destruct (random_name_returns 8 (os h)) as (name & Hname & Hlen & Hlow).
  exists name. split; [done |]. split; [done |].
  set (run_path := path_join TMP_BASE name).
  set (h0 := mkHeap (with_RUN_PATH run_path (self h)) (management h) (tick 8 (os h))).
  assert (Hmake : make_run_path TMP_BASE rand_index cwd h = sys (mkdir run_path) h0).
  { unfold make_run_path. rewrite Hgiven.
    assert (Hdraw : sys (random_name rand_index 8) h
                    = (inr name, mkHeap (self h) (management h) (tick 8 (os h))))
      by (unfold sys; by rewrite Hname).
    rewrite (bind_inr _ _ _ _ _ Hdraw).
    assert (Hmod : modify (set_self (with_RUN_PATH run_path))
                     (mkHeap (self h) (management h) (tick 8 (os h))) = (inr tt, h0)) by done.
    rewrite (bind_inr _ _ _ _ _ Hmod).
    by rewrite (bind_inr _ _ _ _ _ (RUN_PATH_get h0 run_path eq_refl)). }
  assert (Hstat0 : stat (tick 8 (os h)) run_path = stat (os h) run_path) by done.
  unfold setup in Hsetup.
  destruct (make_run_path TMP_BASE rand_index cwd h) as [rm ha] eqn:Hm.
  assert (Hmk : mkdir run_path (tick 8 (os h)) = (rm, os ha)
                /\ self ha = self h0 /\ management ha = management h0).
  { revert Hmake. unfold sys. simpl.
    destruct (mkdir run_path (tick 8 (os h))) as [rm' w']. simpl. by intros [= -> ->]. }
  destruct Hmk as (Hmk & Hsa & Hma).
  assert (Hrest : keeps (unchanged (fun h => _RUN_PATH (self h)))
                    (move_files default_mode;; modify (set_self (with_SETUP true))))
    by (unfold move_files; keeps_all).
  assert (Hpath1 : _RUN_PATH (self h1) = Some run_path).
  { unfold mbind, M_bind, bind in Hsetup. rewrite Hm in Hsetup.
    destruct rm as [e | []].
    - injection Hsetup as _ <-. by rewrite Hsa.
    - specialize (Hrest ha). unfold mbind, M_bind, bind in Hrest. rewrite Hsetup in Hrest.
      unfold unchanged in Hrest. simpl in Hrest. by rewrite Hrest, Hsa. }
  split; [done |]. split.
  - intros ->. unfold mbind, M_bind, bind in Hsetup. rewrite Hm in Hsetup.
    destruct rm as [e | []]; [done |]. rewrite <- Hstat0.
    by apply (mkdir_returns_absent _ _ _ Hmk).
  - intros [x Hx]. rewrite <- Hstat0 in Hx. rewrite (mkdir_exists _ _ _ Hx) in Hmk.
    injection Hmk as <- Hos.
    unfold mbind, M_bind, bind in Hsetup. rewrite Hm in Hsetup. injection Hsetup as <- <-.
    rewrite <- Hos, Hsa. by split_and!.
Qed.

(** X2: Without a path, and with the empty string for a path, [setup] draws a
    name of eight lower-case letters and records the directory of that
    name under the temporary directory, whether it can make it or not; it
    goes on only if that directory did not exist, and raises
    [FileExistsError] without touching the file tree or the flag if it
    did. *)
Theorem setup_temporary cwd overwrite h r h1 :
  given cwd = None ->
  setup default_mode TMP_BASE rand_index cwd overwrite h = (r, h1) ->
  exists name,
    String.length name = 8%nat
    /\ Forall (fun c => is_lowercase c = true) (list_ascii_of_string name)
    /\ _RUN_PATH (self h1) = Some (path_join TMP_BASE name)
    /\ (r = inr tt -> stat (os h) (path_join TMP_BASE name) = None)
    /\ (is_Some (stat (os h) (path_join TMP_BASE name)) ->
        r = inl (FileExistsError (path_join TMP_BASE name))
        /\ files (os h1) = files (os h)
        /\ trace (os h1) = trace (os h)
        /\ _SETUP (self h1) = _SETUP (self h)).
Proof. apply setup_without_path. Qed.

End SetupMore.

(** ** More on [close] and [run] *)

(** On an environment that never had [setup] assign a run path, [close]
    raises [AttributeError] and changes nothing. *)
Lemma close_before_setup h :
  _RUN_PATH (self h) = None -> close h = (inl (AttributeError "_RUN_PATH"), h).
Proof.
  intros Hp. unfold close, RUN_PATH, mbind, M_bind, bind. simpl. by rewrite Hp.
Qed.

(** X4: Once [close] has returned, the working directory is gone while the
    environment still has its path: closing again raises [FileNotFoundError]
    for that path and changes nothing. *)
Theorem close_twice h p h1 :
  _RUN_PATH (self h) = Some p -> resolve (pwd (os h)) p <> [] ->
  close h = (inr tt, h1) ->
  close h1 = (inl (FileNotFoundError p), h1).
Proof.
  intros Hpath Hplace Hclose.
  pose proof (close_keeps_objects h) as Hk. rewrite Hclose in Hk.
  unfold unchanged in Hk. simpl in Hk. injection Hk as Hself Hplan.
  revert Hclose. unfold close.
  rewrite (bind_inr _ _ _ _ _ (RUN_PATH_get h p Hpath)).
  assert (Hpath1 : _RUN_PATH (self h1) = Some p) by (by rewrite Hself).
  rewrite (bind_inr _ _ _ _ _ (RUN_PATH_get h1 p Hpath1)).
  unfold sys. destruct (rmtree p (os h)) as [r w'] eqn:Hrm. simpl. intros [= -> <-]. simpl.
  pose proof (rmtree_returns _ _ _ Hrm) as (Hdir & Hpwd & _).
  assert (Hgone : stat w' p = None).
  { unfold stat in *. rewrite Hpwd. destruct (String.eqb p ""); [done |].
    unfold node_at. rewrite decide_False by done.
    by apply (rmtree_removes p (os h) w' _ Hrm). }
  unfold rmtree, mbind, M_bind, bind. simpl. by rewrite Hgone.
Qed.


Section RunMore.
Variable default_mode : Z.
Context `{!Writes Management, !Writes Crop, !Writes SoilProfile,
          !Writes WeatherStation}.
Variable subprocess_run : list string -> string -> OS Z.
Variable read_csv : string -> exn + DataFrame.

(** X5: When the cultivar the plan selects is not in the crop's table, [run]
    raises [KeyError] with the cultivar: by then it has removed the previous
    outputs and set [cultivars['CR']] in the plan, and it has written no
    input file and not called the engine. *)
Theorem run_unknown_cultivar soil weather crop h h1 :
  _SETUP (self h) = true ->
  remove_previous_outputs h = (inr tt, h1) ->
  crop_cultivar crop !! cultivar (management h1) = None ->
  run default_mode subprocess_run read_csv soil weather crop h
  = (inl (KeyError (cultivar (management h1))),
     mkHeap (self h1) (set_cultivars "CR" (VStr (CODE crop)) (management h1)) (os h1)).
Proof.
  intros Hflag Hrm Hnone.
  rewrite (run_set default_mode subprocess_run read_csv) by done.
  rewrite (bind_inr _ _ _ _ _ Hrm). unfold compile_execute_read.
  apply bind_inl. unfold fill_management, getitem, mbind, M_bind, bind. simpl.
  by rewrite Hnone.
Qed.


End RunMore.

(** ** A directory among the previous outputs *)

Lemma children_NoDup (fs : gmap (list string) node) (k : list string) :
  NoDup (children fs k).
Proof.
  unfold children. pose proof (NoDup_fst_map_to_list fs) as Hnd.
  induction Hnd as [|k' l Hnotin Hnd IH]; simpl; [constructor |].
  destruct (child_of k k') as [n |] eqn:Hc; [| done].
  constructor; [| done]. intros Hin. apply list_elem_of_omap in Hin as (k'' & Hk'' & Hc'').
  apply child_of_Some in Hc as ->. apply child_of_Some in Hc'' as ->. done.
Qed.

(** The loop over the previous outputs stops at the first of them that is a
    directory. *)
Lemma remove_loop_directory p l w :
  NoDup l -> Forall (fun f => name_ok f = true) l ->
  let k := resolve (pwd w) p in
  (forall f, f ∈ l -> is_Some (files w !! (k ++ [f]))) ->
  (exists d, d ∈ l /\ files w !! (k ++ [d]) = Some Dir) ->
  exists d w',
    d ∈ l /\ files w !! (k ++ [d]) = Some Dir
    /\ for_each l (fun f => remove (path_join p f)) w
       = (inl (IsADirectoryError (path_join p d)), w').
Proof.
  intros Hnd Hl. revert w. induction Hnd as [|f l Hnotin Hnd IH]; intros w k Hall Hdir.
  { destruct Hdir as (d & Hd & _). by apply elem_of_nil in Hd. }
  inversion Hl as [|? ? Hf Hl']; subst. simpl.
  destruct (Hall f) as [x Hx]; [apply elem_of_cons; by left |].
  destruct x as [|data mode].
  - exists f, w. split; [apply elem_of_cons; by left |]. split; [done |].
    apply bind_inl. unfold remove, mbind, M_bind, bind. simpl.
    rewrite stat_join by done. fold k. by rewrite Hx.
  - set (w1 := log (EvRemove (path_join p f)) (set_files (delete (k ++ [f])) w)).
    assert (Hrm : remove (path_join p f) w = (inr tt, w1)).
    { unfold remove, mbind, M_bind, bind. simpl. rewrite stat_join by done. fold k.
      rewrite Hx. simpl. by rewrite resolve_join. }
    rewrite (bind_inr _ _ _ _ _ Hrm).
    assert (Hother : forall g, g ∈ l -> files w1 !! (k ++ [g]) = files w !! (k ++ [g])).
    { intros g Hg. simpl. apply lookup_delete_ne. intros Heq.
      apply app_inj_tail in Heq as [_ ->]. done. }
    destruct (IH Hl' w1) as (d & w' & Hd & Hddir & Hloop).
    + intros g Hg. change (resolve (pwd w1) p) with k. rewrite Hother by done.
      apply Hall, elem_of_cons. by right.
    + destruct Hdir as (d & Hd & Hddir). apply elem_of_cons in Hd as [-> | Hd]; [congruence |].
      exists d. split; [done |]. change (resolve (pwd w1) p) with k. by rewrite Hother.
    + change (resolve (pwd w1) p) with k in Hddir. rewrite Hother in Hddir by done.
      exists d, w'. split; [apply elem_of_cons; by right |]. by split.
Qed.

Lemma remove_keeps_directories q w key :
  files w !! key = Some Dir -> files (remove q w).2 !! key = Some Dir.
Proof.
  intros Hkey. unfold remove, mbind, M_bind, bind. simpl.
  destruct (stat w q) as [[|data mode] |] eqn:Hq; simpl; [done | | done].
  apply stat_File_lookup in Hq. rewrite lookup_delete_ne; [done |]. congruence.
Qed.

Lemma remove_loop_keeps_directories p l w key :
  files w !! key = Some Dir ->
  files (for_each l (fun f => remove (path_join p f)) w).2 !! key = Some Dir.
Proof.
  revert w. induction l as [|f l IH]; intros w Hkey; simpl; [done |].
  unfold mbind, M_bind, bind.
  pose proof (remove_keeps_directories (path_join p f) w key Hkey) as Hstep.
  destruct (remove (path_join p f) w) as [[e | []] w1]; simpl in *; [done |].
  by apply IH.
Qed.

Section Directory.
Variable default_mode : Z.
Context `{!Writes Management, !Writes Crop, !Writes SoilProfile,
          !Writes WeatherStation}.
Variable subprocess_run : list string -> string -> OS Z.
Variable read_csv : string -> exn + DataFrame.

(** X7: [run] removes whatever the working directory lists under a name
    ending in OUT with [os.remove]: when one of these entries is a directory,
    [run] raises [IsADirectoryError] for such a directory and gets no further:
    no input file is written and the engine is not called; the directory is
    still there afterwards. *)
Theorem run_directory_named_output soil weather crop h p d :
  _SETUP (self h) = true -> _RUN_PATH (self h) = Some p -> wf_files (files (os h)) ->
  stat (os h) p = Some Dir ->
  is_output d = true ->
  files (os h) !! (resolve (pwd (os h)) p ++ [d]) = Some Dir ->
  exists d' h1,
    is_output d' = true
    /\ files (os h) !! (resolve (pwd (os h)) p ++ [d']) = Some Dir
    /\ files (os h1) !! (resolve (pwd (os h)) p ++ [d']) = Some Dir
    /\ remove_previous_outputs h = (inl (IsADirectoryError (path_join p d')), h1)
    /\ run default_mode subprocess_run read_csv soil weather crop h
       = (inl (IsADirectoryError (path_join p d')), h1).
Proof.
  intros Hflag Hpath Hwf Hstat Hd Hdir.
  set (k := resolve (pwd (os h)) p) in *.
  set (names := filter (fun i => is_output i = true) (children (files (os h)) k)).
  assert (Hnames : Forall (fun f => name_ok f = true) names).
  { apply Forall_forall. intros f [_ Hf]%list_elem_of_filter. by eapply children_ok. }
  destruct (remove_loop_directory p names (os h)) as (d' & w' & Hd' & Hd'dir & Hloop).
  - apply NoDup_filter, children_NoDup.
  - done.
  - intros f [_ Hf]%list_elem_of_filter. by apply elem_of_children.
  - exists d. split; [| done]. apply list_elem_of_filter. split; [done |].
    apply elem_of_children. by eexists.
  - fold k in Hd'dir. apply list_elem_of_filter in Hd' as [Hd'out Hd'in].
    assert (Hrm : remove_previous_outputs h
                  = (inl (IsADirectoryError (path_join p d')),
                     mkHeap (self h) (management h) w')).
    { unfold remove_previous_outputs.
      rewrite (bind_inr _ _ _ _ _ (RUN_PATH_get h p Hpath)).
      pose proof (sys_listdir h p) as Hlist. rewrite Hstat in Hlist.
      rewrite (bind_inr _ _ _ _ _ Hlist). fold k. fold names.
      rewrite (for_each_sys names (fun f => remove (path_join p f))). unfold sys.
      by rewrite Hloop. }
    exists d', (mkHeap (self h) (management h) w'). split_and!; try done.
    + simpl.
      pose proof (remove_loop_keeps_directories p names (os h) _ Hd'dir) as Hkeep.
      by rewrite Hloop in Hkeep.
    + rewrite (run_set default_mode subprocess_run read_csv) by done.
      by rewrite (bind_inl _ _ _ _ _ Hrm).
Qed.

End Directory.

(** ** The input files *)

Lemma has_sep_app (a b : string) : has_sep (a +:+ b) = has_sep a || has_sep b.
Proof.
  induction a as [|c a IH]; [done |]. rewrite append_cons. simpl. rewrite IH.
  by rewrite orb_assoc.
Qed.

Lemma has_sep_zeros (n : nat) : has_sep (zeros n) = false.
Proof. induction n as [|n IH]; simpl; [done | exact IH]. Qed.

Lemma has_sep_decimal (z : Z) : has_sep (decimal z) = false.
Proof.
  unfold decimal, NilZero.string_of_uint.
  assert (H : forall d, has_sep (NilEmpty.string_of_uint d) = false)
    by (induction d; simpl; done).
  destruct (N.to_uint (Z.to_N z)); try done; simpl; apply H.
Qed.

Lemma has_sep_strftime_ym (d : date) : has_sep (strftime_ym d) = false.
Proof.
  unfold strftime_ym, zfill.
  by rewrite !has_sep_app, !has_sep_zeros, !has_sep_decimal.
Qed.

(** A name that ends in X is none of the empty name, [.] and [..]. *)
Lemma name_ok_ends_X (a : string) : has_sep a = false -> name_ok (a +:+ "X") = true.
Proof.
  intros Ha. unfold name_ok. rewrite has_sep_app, Ha. simpl.
  destruct a as [|c [|c' [|c'' a]]]; try done.
  - rewrite !append_cons, append_nil_l.
    destruct (Ascii.eqb_spec c "."); [by subst | ].
    assert (H1 : String.eqb (String c "X") "." = false) by (by apply String.eqb_neq).
    assert (H2 : String.eqb (String c "X") ".." = false)
      by (apply String.eqb_neq; congruence).
    by rewrite H1, H2.
  - rewrite !append_cons, append_nil_l.
    assert (H1 : String.eqb (String c (String c' "X")) "." = false)
      by (by apply String.eqb_neq).
    assert (H2 : String.eqb (String c (String c' "X")) ".." = false)
      by (by apply String.eqb_neq).
    by rewrite H1, H2.
  - rewrite !append_cons.
    assert (H1 : String.eqb (String c (String c' (String c'' (a +:+ "X")))) "." = false)
      by (by apply String.eqb_neq).
    assert (H2 : String.eqb (String c (String c' (String c'' (a +:+ "X")))) ".." = false)
      by (by apply String.eqb_neq).
    by rewrite H1, H2.
Qed.

Lemma management_name_ok weather crop plan :
  has_sep (INSI weather) = false -> has_sep (CODE crop) = false ->
  name_ok (management_name weather crop plan) = true.
Proof.
  intros HI HC. unfold management_name.
  replace (INSI weather +:+ strftime_ym (sim_start plan) +:+ "." +:+ CODE crop +:+ "X")
    with ((INSI weather +:+ strftime_ym (sim_start plan) +:+ "." +:+ CODE crop) +:+ "X")
    by (by rewrite !append_assoc).
  apply name_ok_ends_X. by rewrite !has_sep_app, HI, HC, has_sep_strftime_ym.
Qed.

Section Inputs.
Variable default_mode : Z.
Context `{!Writes Management, !Writes Crop, !Writes SoilProfile,
          !Writes WeatherStation}.
Variable subprocess_run : list string -> string -> OS Z.

Lemma store_stat q data w w' :
  store default_mode q data w = (inr tt, w') ->
  exists mode, stat w' q = Some (File data mode).
Proof.
  unfold store, mbind, M_bind, bind. simpl.
  destruct (String.eqb q "") eqn:Hq; [done |].
  unfold stat at 1. rewrite Hq. unfold node_at.
  case_decide as Hroot; [done |].
  destruct (files w !! resolve (pwd w) q) as [[|old mode] |] eqn:Hlook; simpl; [done | |].
  - intros [= <-]. exists mode. unfold stat, node_at. simpl. rewrite Hq.
    rewrite decide_False by done. by rewrite lookup_insert_eq.
  - unfold parent_dir.
    destruct (node_at (files w) (removelast (resolve (pwd w) q))) as [[|? ?] |];
      simpl; [| done | done].
    intros [= <-]. exists default_mode. unfold stat, node_at. simpl. rewrite Hq.
    rewrite decide_False by done. by rewrite lookup_insert_eq.
Qed.

(** X8: What [run] has written when the input phase returns, and how the
    engine is then called: the objects were handed the management file under
    the run path, the run path itself, [SOIL.SOL] and [Weather] under it; the
    control file [DSSATPRO.L48] under the run path holds the six lines that
    name the weather directory, the run path and the four static
    directories; the environment and the plan are as they were.  When
    neither the station code nor the crop code has a separator in it, the
    name the engine is called with, in the run path, is the name of the
    management file, and the program called is the binary of the package,
    not its copy in the run path. *)
Theorem write_inputs_returns soil weather crop h p management_filename h1 :
  _RUN_PATH (self h) = Some p ->
  write_inputs default_mode soil weather crop h = (inr management_filename, h1) ->
  let name := management_name weather crop (management h) in
  management_filename = path_join p name
  /\ self h1 = self h /\ management h1 = management h
  /\ (exists mode, stat (os h1) (path_join p "DSSATPRO.L48")
                   = Some (File (control_text (self h) p) mode))
  /\ (has_sep (INSI weather) = false -> has_sep (CODE crop) = false ->
      basename management_filename = name
      /\ (forall cwd, resolve cwd management_filename = resolve cwd p ++ [name])
      /\ forall returncode w',
           subprocess_run [_BIN_PATH (self h); "C"; name; "1"] p (os h1)
           = (inr returncode, w') ->
           execute subprocess_run management_filename h1
           = (if returncode =? 0 then inr tt
              else inl (AssertionError (EXECUTION_MESSAGE p)),
              mkHeap (self h) (management h) w')).
Proof.
  intros Hpath Hwrite name.
  assert (Hk : keeps (unchanged (fun h => (self h, management h)))
                 (write_inputs default_mode soil weather crop))
    by (unfold write_inputs; keeps_all).
  specialize (Hk h). rewrite Hwrite in Hk. unfold unchanged in Hk. simpl in Hk.
  injection Hk as Hself Hplan.
  revert Hwrite. unfold write_inputs.
  assert (Hget : (get : M Heap Heap) h = (inr h, h)) by done.
  rewrite (bind_inr _ _ _ _ _ Hget).
  rewrite (bind_inr _ _ _ _ _ (RUN_PATH_get h p Hpath)).
  intros [(e & _ & ?) | ([] & ha & _ & Hrest)]%bind_inv; [done |].
  apply bind_inv in Hrest as [(e & _ & ?) | ([] & hb & _ & Hrest)]; [done |].
  apply bind_inv in Hrest as [(e & _ & ?) | ([] & hc & _ & Hrest)]; [done |].
  apply bind_inv in Hrest as [(e & _ & ?) | ([] & hd & _ & Hrest)]; [done |].
  apply bind_inv in Hrest as [(e & _ & ?) | ([] & he & Hcontrol & Hret)]; [done |].
  injection Hret as <- <-.
  assert (Hfile : exists mode, stat (os he) (path_join p "DSSATPRO.L48")
                               = Some (File (control_text (self h) p) mode)).
  { revert Hcontrol. unfold sys, write_text, mbind, M_bind, bind. simpl.
    destruct (store default_mode _ _ (os hd)) as [[e | []] w1] eqn:Hstore; simpl;
      intros Heq; [discriminate Heq | injection Heq as Hhe].
    subst he. apply store_stat in Hstore as [mode Hmode]. exists mode. exact Hmode. }
  split_and!; try done.
  intros HI HC. pose proof (management_name_ok weather crop (management h) HI HC) as Hok.
  fold name in Hok. split_and!.
  - by apply basename_join.
  - intros cwd. by apply resolve_join.
  - intros returncode w' Hengine.
    rewrite <- Hself, <- Hplan. apply execute_spec; [by rewrite Hself |].
    pose proof (basename_join p name Hok) as Hbase. unfold name, management_name in Hbase.
    rewrite Hself, Hplan, Hbase. exact Hengine.
Qed.

End Inputs.

(** ** The output cache *)

Lemma stored_snoc read name df cache :
  stored (read ++ [(name, df)]) cache = <[name := df]> (stored read cache).
Proof. unfold stored. by rewrite fold_left_app. Qed.

Lemma stored_cons name df read cache :
  stored ((name, df) :: read) cache = stored read (<[name := df]> cache).
Proof. done. Qed.

Lemma stored_other read cache name :
  name ∉ read.*1 -> stored read cache !! name = cache !! name.
Proof.
  revert cache. induction read as [|[n df] read IH]; intros cache Hnotin; [done |].
  rewrite stored_cons, IH.
  - apply lookup_insert_ne. intros ->. apply Hnotin. simpl. apply elem_of_cons. by left.
  - intros Hin. apply Hnotin. simpl. apply elem_of_cons. by right.
Qed.

Section Cache.
Variable default_mode : Z.
Context `{!Writes Management, !Writes Crop, !Writes SoilProfile,
          !Writes WeatherStation}.
Variable subprocess_run : list string -> string -> OS Z.
Variable read_csv : string -> exn + DataFrame.

(** One turn of the loop either stores one table or raises and stores
    nothing. *)
Lemma read_output_stores OUTPUT_FILES file h r h1 :
  read_output read_csv OUTPUT_FILES file h = (r, h1) ->
  settings h1 = settings h
  /\ ((exists df, r = inr tt /\ output (self h1) = <[file := df]> (output (self h)))
      \/ (exists e, r = inl e /\ output (self h1) = output (self h))).
Proof.
  unfold read_output, RUN_PATH, py_assert, mbind, M_bind, bind, sys. simpl.
  destruct (_RUN_PATH (self h)) as [p |]; simpl;
    [| intros [= <- <-]; split; [done | right; by eexists]].
  case_bool_decide as Hin; simpl; [| intros [= <- <-]; split; [done | right; by eexists]].
  destruct (read_text _ (os h)) as [[e | text] w']; simpl;
    [intros [= <- <-]; split; [done | right; by eexists] |].
  destruct (read_csv text) as [e | df]; simpl;
    [intros [= <- <-]; split; [done | right; by eexists] |].
  destruct (reconstruct_index df) as [e | df']; simpl;
    [intros [= <- <-]; split; [done | right; by eexists] |].
  intros [= <- <-]. split; [done |]. left. by exists df'.
Qed.

Lemma read_loop_stores OUTPUT_FILES names h r h1 :
  for_each names (read_output read_csv OUTPUT_FILES) h = (r, h1) ->
  settings h1 = settings h
  /\ exists read,
       read.*1 `prefix_of` names
       /\ output (self h1) = stored read (output (self h))
       /\ (r = inr tt -> read.*1 = names).
Proof.
  revert h. induction names as [|file names IH]; intros h; simpl.
  { intros [= <- <-]. split; [done |]. exists []. split_and!; try done. }
  intros [(e & Hfile & ->) | ([] & h2 & Hfile & Hrest)]%bind_inv.
  - apply read_output_stores in Hfile as [Hset [(df & ? & _) | (e' & _ & Hout)]]; [done |].
    split; [done |]. exists []. split_and!; [apply prefix_nil | done | done].
  - apply read_output_stores in Hfile as [Hset [(df & _ & Hout) | (e' & ? & _)]]; [| done].
    apply IH in Hrest as (Hset' & read & Hpre & Hstored & Hall).
    split; [congruence |]. exists ((file, df) :: read). split_and!.
    + rewrite fmap_cons. by apply prefix_cons.
    + by rewrite stored_cons, <- Hout.
    + intros Hr. rewrite fmap_cons. f_equal. by apply Hall.
Qed.

(** X9: [run] never empties the output cache: when it is over, however it ends,
    the cache is the one it found with the tables of the requested names it
    has read stored over it, in the order of the list; these are all the
    requested names if [run] returns and the first few of them, possibly
    none, if it raises.  The tables of a previous run stay under every other
    name, and under the requested names that were not reached. *)
Theorem run_stores_outputs soil weather crop h r h1 :
  run default_mode subprocess_run read_csv soil weather crop h = (r, h1) ->
  exists read,
    read.*1 `prefix_of` OUTPUT_LIST (self h)
    /\ output (self h1) = stored read (output (self h))
    /\ (r = inr tt -> read.*1 = OUTPUT_LIST (self h))
    /\ (forall name, name ∉ read.*1 -> output (self h1) !! name = output (self h) !! name).
Proof.
  intros Hrun.
  assert (Hgoal : exists read,
            read.*1 `prefix_of` OUTPUT_LIST (self h)
            /\ output (self h1) = stored read (output (self h))
            /\ (r = inr tt -> read.*1 = OUTPUT_LIST (self h))).
  { assert (Hnone : forall e, r = inl e -> self h1 = self h ->
              exists read,
                read.*1 `prefix_of` OUTPUT_LIST (self h)
                /\ output (self h1) = stored read (output (self h))
                /\ (r = inr tt -> read.*1 = OUTPUT_LIST (self h))).
    { intros e -> ->. exists []. split_and!; [apply prefix_nil | done | done]. }
    assert (Kr : keeps (unchanged self) remove_previous_outputs)
      by (unfold remove_previous_outputs; keeps_all).
    assert (Kf : keeps (unchanged self) (fill_management soil weather crop))
      by (unfold fill_management; keeps_all).
    assert (Kw : keeps (unchanged self) (write_inputs default_mode soil weather crop))
      by (unfold write_inputs; keeps_all).
    assert (Ke : forall mf, keeps (unchanged self) (execute subprocess_run mf))
      by (intros mf; unfold execute; keeps_all).
    unfold run in Hrun.
    assert (Hget : (get : M Heap Heap) h = (inr h, h)) by done.
    rewrite (bind_inr _ _ _ _ _ Hget) in Hrun.
    apply bind_inv in Hrun as [(e & Ha & ->) | ([] & h0 & Ha & Hrun)].
    { apply (Hnone e eq_refl). revert Ha. unfold py_assert.
      destruct (_SETUP (self h)); [done | by intros [= _ <-]]. }
    assert (Hh0 : h0 = h).
    { revert Ha. unfold py_assert. destruct (_SETUP (self h)); [by intros [= <-] | done]. }
    subst h0.
    apply bind_inv in Hrun as [(e & Hc & ->) | ([] & ha & Hc & Hrun)];
      pose proof (Kr h) as Hka; rewrite Hc in Hka; unfold unchanged in Hka; simpl in Hka.
    { by apply (Hnone e). }
    unfold compile_execute_read in Hrun.
    apply bind_inv in Hrun as [(e & Hc' & ->) | ([] & hb & Hc' & Hrun)];
      pose proof (Kf ha) as Hkb; rewrite Hc' in Hkb; unfold unchanged in Hkb; simpl in Hkb.
    { apply (Hnone e eq_refl). congruence. }
    apply bind_inv in Hrun as [(e & Hc'' & ->) | (mf & hc & Hc'' & Hrun)];
      pose proof (Kw hb) as Hkc; rewrite Hc'' in Hkc; unfold unchanged in Hkc; simpl in Hkc.
    { apply (Hnone e eq_refl). congruence. }
    apply bind_inv in Hrun as [(e & Hx & ->) | ([] & hd & Hx & Hrun)];
      pose proof (Ke mf hc) as Hkd; rewrite Hx in Hkd; unfold unchanged in Hkd; simpl in Hkd.
    { apply (Hnone e eq_refl). congruence. }
    assert (Hself : self hd = self h) by congruence.
    rewrite <- Hself. revert Hrun. unfold read_outputs.
    intros [(e & Hp & ->) | (p & h4 & Hp & Hrun)]%bind_inv.
    { exists []. split_and!; [apply prefix_nil | | done].
      pose proof (keeps_RUN_PATH (unchanged self) hd) as Hk. rewrite Hp in Hk.
      unfold unchanged in Hk. simpl in Hk. by rewrite Hk. }
    assert (Hh4 : h4 = hd).
    { revert Hp. unfold RUN_PATH, mbind, M_bind, bind. simpl.
      destruct (_RUN_PATH (self hd)); [by intros [= _ <-] | done]. }
    subst h4.
    pose proof (sys_listdir hd p) as Hlist.
    destruct (stat (os hd) p) as [[|data mode] |].
    2, 3: (rewrite (bind_inl _ _ _ _ _ Hlist) in Hrun; injection Hrun as <- <-;
           exists []; split_and!; [apply prefix_nil | done | done]).
    rewrite (bind_inr _ _ _ _ _ Hlist) in Hrun.
    assert (Hget' : (get : M Heap Heap) hd = (inr hd, hd)) by done.
    rewrite (bind_inr _ _ _ _ _ Hget') in Hrun.
    apply read_loop_stores in Hrun as (_ & read & Hpre & Hstored & Hall).
    by exists read. }
  destruct Hgoal as (read & Hpre & Hstored & Hall). exists read. split_and!; try done.
  intros name Hname. rewrite Hstored. by apply stored_other.
Qed.

End Cache.

(** ** The tokens of the date index *)

Lemma all_from_spec (n : nat) (f : Z -> bool) (z s : Z) :
  all_from n f z = true -> z <= s < z + Z.of_nat n -> f s = true.
Proof.
  revert z. induction n as [|n IH]; intros z; simpl; [lia |].
  intros [Hz Hrest]%andb_true_iff Hs.
  destruct (decide (s = z)) as [-> | Hne]; [done |]. apply (IH (z + 1)); [done | lia].
Qed.

Lemma tokens_checked : all_from (Z.to_nat 100000) token_ok 0 = true.
Proof. vm_compute. reflexivity. Qed.

Lemma date_eqb_eq (a b : date) : date_eqb a b = true -> a = b.
Proof.
  unfold date_eqb. destruct a, b. simpl.
  intros [[?%Z.eqb_eq ?%Z.eqb_eq]%andb_true_iff ?%Z.eqb_eq]%andb_true_iff. by subst.
Qed.

(** A sum below 100000 is formatted as five digits and read back as two
    digits of year and three of day. *)
Lemma strptime_token (s : Z) :
  0 <= s < 100000 ->
  (1 <= s mod 1000 <= 366 -> strptime_yj (format_05d s) = inr (token_date s))
  /\ (~ 1 <= s mod 1000 <= 366 -> returned (strptime_yj (format_05d s)) = false).
Proof.
  intros Hs. pose proof (all_from_spec _ _ 0 s tokens_checked ltac:(lia)) as Hok.
  unfold token_ok, in_range in Hok. destruct (strptime_yj (format_05d s)) as [e | d].
  - split; [| done]. intros Hday. apply negb_true_iff, andb_false_iff in Hok. lia.
  - apply andb_true_iff in Hok as [Hday Heq]. apply date_eqb_eq in Heq as ->.
    split; [done |]. apply andb_true_iff in Hday. lia.
Qed.

Lemma wrap64_small (z : Z) : 0 <= z < 100000 -> wrap64 z = z.
Proof. intros Hz. unfold wrap64. rewrite Z.mod_small; lia. Qed.

Lemma to_datetime_reads (ys ds : list Z) :
  (forall i y d, ys !! i = Some y -> ds !! i = Some d ->
     0 <= y + d < 100000 /\ 1 <= (y + d) mod 1000 <= 366) ->
  to_datetime_yj (zip_with (fun y d => format_05d (wrap64 (y + d))) ys ds)
  = inr (zip_with (fun y d => token_date (y + d)) ys ds).
Proof.
  revert ds. induction ys as [|y ys IH]; intros [|d ds] Hrows; simpl; try done.
  destruct (Hrows 0%nat y d eq_refl eq_refl) as [Hsum Hday].
  rewrite wrap64_small by done.
  rewrite (proj1 (strptime_token (y + d) Hsum) Hday).
  rewrite IH; [done |]. intros i y' d' Hy' Hd'. by apply (Hrows (S i)).
Qed.

Lemma to_datetime_rejects (ys ds : list Z) i y d :
  ys !! i = Some y -> ds !! i = Some d ->
  0 <= y + d < 100000 -> ~ 1 <= (y + d) mod 1000 <= 366 ->
  returned (to_datetime_yj (zip_with (fun y d => format_05d (wrap64 (y + d))) ys ds))
  = false.
Proof.
  revert ds i. induction ys as [|y0 ys IH]; intros [|d0 ds] [|i]; simpl; try done.
  - intros [= ->] [= ->] Hsum Hday. rewrite wrap64_small by done.
    pose proof (proj2 (strptime_token (y + d) Hsum) Hday) as Hbad.
    by destruct (strptime_yj (format_05d (y + d))).
  - intros Hy Hd Hsum Hday. destruct (strptime_yj _); [done |].
    pose proof (IH ds i Hy Hd Hsum Hday) as Hrest. by destruct (to_datetime_yj _).
Qed.

(** X10: How the date index comes out of a table with integer columns [@YEAR]
    and [DOY]: each row's two numbers are added, and the five digits of the
    sum are read as two digits of year and three of day of the year.  When
    every sum is below 100000 and ends in a day from 001 to 366, the index
    is made of these dates, year = sum / 1000 in the century of [%y], day =
    sum mod 1000, and the columns are kept. *)
Theorem reconstruct_index_reads_sum df ys ds :
  column_named "@YEAR" df = Some (IntCol ys) ->
  column_named "DOY" df = Some (IntCol ds) ->
  (forall i y d, ys !! i = Some y -> ds !! i = Some d ->
     0 <= y + d < 100000 /\ 1 <= (y + d) mod 1000 <= 366) ->
  reconstruct_index df
  = inr (mkFrame (df_columns df)
           (DatetimeIndex
              (zip_with (fun y d => date_of_julian (century ((y + d) / 1000))
                                                   ((y + d) mod 1000)) ys ds))).
Proof.
  intros Hy Hd Hrows. unfold reconstruct_index. rewrite Hy, Hd. simpl.
  by rewrite (to_datetime_reads ys ds Hrows).
Qed.

(** X11: When the sum of some row is below 100000 and its last three digits are
    000 or more than 366, [pd.to_datetime] raises and so does the reading of
    the outputs: with the four-digit year 2023 in [@YEAR] this is every day
    of the year after the 343rd. *)
Theorem reconstruct_index_rejects df ys ds i y d :
  column_named "@YEAR" df = Some (IntCol ys) ->
  column_named "DOY" df = Some (IntCol ds) ->
  ys !! i = Some y -> ds !! i = Some d ->
  0 <= y + d < 100000 -> ~ 1 <= (y + d) mod 1000 <= 366 ->
  returned (reconstruct_index df) = false.
Proof.
  intros Hy Hd Hyi Hdi Hsum Hday. unfold reconstruct_index. rewrite Hy, Hd. simpl.
  pose proof (to_datetime_rejects ys ds i y d Hyi Hdi Hsum Hday) as Hbad.
  by destruct (to_datetime_yj _).
Qed.

(** ** What the calls keep *)

Section Invariant.
Variable default_mode : Z.
Variable TMP_BASE : string.
Variable rand_index : nat -> nat.
Context `{!Writes Management, !Writes Crop, !Writes SoilProfile,
          !Writes WeatherStation}.
Variable subprocess_run : list string -> string -> OS Z.
Variable read_csv : string -> exn + DataFrame.

Lemma setup_keeps_fixed cwd overwrite :
  keeps (unchanged fixed) (setup default_mode TMP_BASE rand_index cwd overwrite).
Proof. unfold setup, make_run_path, move_files. keeps_all. Qed.

(** After [setup], however it ends, the run path is assigned. *)
Lemma setup_assigns_RUN_PATH cwd overwrite h :
  is_Some (_RUN_PATH (self (setup default_mode TMP_BASE rand_index cwd overwrite h).2)).
Proof.
  destruct (setup default_mode TMP_BASE rand_index cwd overwrite h) as [r h1] eqn:Hs.
  simpl. destruct (given cwd) as [p |] eqn:Hg.
  - assert (Hcwd : cwd = Some p /\ p <> "").
    { unfold given in Hg. destruct cwd as [q |]; [| done].
      destruct (String.eqb_spec q ""); [done |]. by injection Hg as ->. }
    destruct Hcwd as [-> Hp]. destruct r as [e | []].
    + by destruct (setup_raises_records default_mode TMP_BASE rand_index
                     p overwrite h e h1 Hp Hs) as (-> & _).
    + unfold setup in Hs.
      apply bind_inv in Hs as [(e & _ & ?) | ([] & ha & Hmake & Hs)]; [done |].
      apply (make_run_path_records TMP_BASE rand_index p h _ ha Hp) in Hmake as [Hsa _].
      assert (Hk : keeps (unchanged (fun h => _RUN_PATH (self h)))
                     (move_files default_mode;; modify (set_self (with_SETUP true))))
        by (unfold move_files; keeps_all).
      specialize (Hk ha). rewrite Hs in Hk. unfold unchanged in Hk. simpl in Hk.
      rewrite Hk, Hsa. by eexists.
  - destruct (setup_without_path default_mode TMP_BASE rand_index cwd overwrite h r h1 Hg Hs)
      as (name & _ & _ & -> & _). by eexists.
Qed.

Lemma perform_keeps_built BASE_PATH c h :
  built_for BASE_PATH (self h) ->
  built_for BASE_PATH
    (self (perform default_mode TMP_BASE rand_index subprocess_run read_csv c h).2).
Proof.
  intros (H1 & H2 & H3 & H4 & H5 & H6 & H7). unfold built_for.
  destruct c as [cwd overwrite | soil weather crop |]; simpl.
  - pose proof (setup_keeps_fixed cwd overwrite h) as Hk.
    pose proof (setup_assigns_RUN_PATH cwd overwrite h) as Hp.
    unfold unchanged, fixed in Hk. injection Hk as -> -> -> -> -> ->.
    by split_and!.
  - pose proof (run_keeps_settings default_mode subprocess_run read_csv soil weather crop h)
      as Hk.
    unfold unchanged, settings in Hk. injection Hk as -> -> -> -> -> -> _ -> ->.
    by split_and!.
  - pose proof (close_keeps_objects h) as Hk. unfold unchanged in Hk.
    injection Hk as -> _. by split_and!.
Qed.

(** A [setup] that returns sets the flag; nothing ever clears it. *)
Lemma perform_keeps_ready c h :
  _SETUP (self h) = true ->
  _SETUP (self (perform default_mode TMP_BASE rand_index subprocess_run read_csv c h).2)
  = true.
Proof.
  intros Hflag. destruct c as [cwd overwrite | soil weather crop |]; simpl.
  - destruct (setup default_mode TMP_BASE rand_index cwd overwrite h) as [[e | []] h1] eqn:Hs.
    + simpl. by rewrite (setup_raises_keeps_SETUP _ _ _ _ _ _ _ _ Hs).
    + simpl. unfold setup in Hs.
      apply bind_inv in Hs as [(e & _ & ?) | ([] & ha & _ & Hs)]; [done |].
      apply bind_inv in Hs as [(e & _ & ?) | ([] & hb & _ & Hs)]; [done |].
      by injection Hs as <-.
  - pose proof (run_keeps_settings default_mode subprocess_run read_csv soil weather crop h)
      as Hk.
    unfold unchanged, settings in Hk. congruence.
  - pose proof (close_keeps_objects h) as Hk. unfold unchanged in Hk.
    injection Hk as -> _. done.
Qed.

(** X12: Whatever calls of [setup], [run] and [close] are made on an environment
    made by [__init__], in any order and whatever they raise: the paths of
    the package in it are those [__init__] computed, the list of outputs to
    read is still [PlantGro] alone, a ready environment has a run path (so
    that neither [run] nor [close] then raises [AttributeError]), and an
    environment that was ready before the last call is ready after it:
    [close] does not make it unready. *)
Theorem calls_keep_environment BASE_PATH plan w cs c :
  let h := (history default_mode TMP_BASE rand_index subprocess_run read_csv cs
              (mkHeap (init BASE_PATH) plan w)).2 in
  let h' := (perform default_mode TMP_BASE rand_index subprocess_run read_csv c h).2 in
  built_for BASE_PATH (self h)
  /\ built_for BASE_PATH (self h')
  /\ (_SETUP (self h) = true -> _SETUP (self h') = true).
Proof.
  simpl.
  assert (Hbuilt : forall cs h0, built_for BASE_PATH (self h0) ->
            built_for BASE_PATH
              (self (history default_mode TMP_BASE rand_index subprocess_run read_csv
                       cs h0).2)).
  { clear cs. induction cs as [|c0 cs IH]; intros h0 H0; simpl; [done |].
    apply IH. by apply perform_keeps_built. }
  assert (Hinit : built_for BASE_PATH (self (mkHeap (init BASE_PATH) plan w)))
    by (by split_and!).
  split_and!.
  - by apply Hbuilt.
  - by apply perform_keeps_built, Hbuilt.
  - apply perform_keeps_ready.
Qed.

End Invariant.

(** ** Names that end in OUT *)

Lemma substring_app_length (a b : string) :
  String.substring (String.length a) (String.length b) (a +:+ b) = b.
Proof.
  induction a as [|c a IH]; [| by rewrite append_cons].
  rewrite append_nil_l. simpl. induction b as [|c b IHb]; simpl; [done | by rewrite IHb].
Qed.

Lemma length_append (a b : string) :
  String.length (a +:+ b) = (String.length a + String.length b)%nat.
Proof. induction a as [|c a IH]; [done |]. rewrite append_cons. simpl. by rewrite IH. Qed.

Lemma substring_split (n : nat) (s : string) :
  (n <= String.length s)%nat ->
  s = String.substring 0 n s +:+ String.substring n (String.length s - n) s.
Proof.
  revert s. induction n as [|n IH]; intros s Hn.
  - rewrite Nat.sub_0_r. destruct s as [|c s]; [done |]. simpl. rewrite append_nil_l.
    f_equal. clear. induction s as [|c s IH]; simpl; [done | by rewrite <- IH].
  - destruct s as [|c s]; simpl in *; [lia |]. rewrite append_cons. f_equal.
    apply IH. lia.
Qed.

Lemma length_substring (n m : nat) (s : string) :
  (n + m <= String.length s)%nat -> String.length (String.substring n m s) = m.
Proof.
  revert n m. induction s as [|c s IH]; intros [|n] [|m]; simpl; try lia.
  - intros H. f_equal. apply (IH 0%nat). simpl. lia.
  - intros H. apply (IH n 0%nat). lia.
  - intros H. apply (IH n (S m)). lia.
Qed.

(** X13: The test [i[-3:] == 'OUT'] of [run] holds of the names that end in the
    three letters OUT, and of no other: the name OUT itself and names
    without a dot before OUT are among them, names shorter than three
    letters are not. *)
Theorem is_output_suffix (i : string) :
  is_output i = true <-> exists a, i = a +:+ "OUT".
Proof.
  unfold is_output, last_chars. rewrite String.eqb_eq. split.
  - intros Hlast. destruct (decide (3 <= String.length i)%nat) as [Hlen | Hshort].
    + exists (String.substring 0 (String.length i - 3) i).
      pose proof (substring_split (String.length i - 3) i ltac:(lia)) as Hsplit.
      replace (String.length i - (String.length i - 3))%nat with 3%nat in Hsplit by lia.
      by rewrite Hlast in Hsplit.
    + replace (String.length i - 3)%nat with 0%nat in Hlast by lia.
      destruct i as [|c1 [|c2 [|c3 i]]]; simpl in *; try done. lia.
  - intros [a ->]. rewrite length_append. simpl String.length.
    replace (String.length a + 3 - 3)%nat with (String.length a) by lia.
    apply (substring_app_length a "OUT").
Qed.

(** ** What [setup] leaves alone *)

(** X14: [setup] never resets anything: whatever its arguments, [overwrite]
    included, and whether it returns or raises, the output cache, the
    management plan and the paths of the package are afterwards what they
    were before. *)
Theorem setup_resets_nothing default_mode TMP_BASE rand_index cwd overwrite h :
  let h' := (setup default_mode TMP_BASE rand_index cwd overwrite h).2 in
  output (self h') = output (self h)
  /\ _input (self h') = _input (self h)
  /\ management h' = management h
  /\ fixed h' = fixed h.
Proof.
  simpl.
  assert (Hk : keeps (unchanged (fun h => (output (self h), _input (self h), management h,
                                           fixed h)))
                 (setup default_mode TMP_BASE rand_index cwd overwrite))
    by (unfold setup, make_run_path, move_files; keeps_all).
  specialize (Hk h). unfold unchanged in Hk. split_and!.
  - exact (f_equal (fun t => t.1.1.1) Hk).
  - exact (f_equal (fun t => t.1.1.2) Hk).
  - exact (f_equal (fun t => t.1.2) Hk).
  - exact (f_equal (fun t => t.2) Hk).
Qed.

(** ** These properties at work in the sample world *)

Lemma setup_stages_witness :
  _SETUP (self Sample.staged) = true /\ _RUN_PATH (self Sample.staged) = Some "/tmp/ws".
Proof.
  assert (Hp : "/tmp/ws" <> "") by discriminate.
  assert (Hwf : wf_world (os Sample.heap))
    by (refine (bool_decide_unpack _ _); vm_compute; exact I).
  assert (Hfirst : setup Sample.mode "/tmp" (fun n => n) (Some "/tmp/ws") false Sample.heap
                   = (inr tt, Sample.staged))
    by (vm_compute; reflexivity).
  pose proof (setup_stages Sample.mode "/tmp" (fun n => n) "/tmp/ws" false Sample.heap
                Sample.staged Hp Hwf Hfirst) as H.
  cbv zeta in H. destruct H as (Hflag & Hpath & _). split; [exact Hflag | exact Hpath].
Defined.

Lemma setup_temporary_witness :
  exists name,
    String.length name = 8%nat
    /\ _RUN_PATH (self Sample.temporary) = Some (path_join "/tmp" name).
Proof.
  assert (Hgiven : given None = None) by reflexivity.
  assert (Hsetup : setup Sample.mode "/tmp" (fun n => n) None false Sample.heap
                   = (inr tt, Sample.temporary))
    by (vm_compute; reflexivity).
  destruct (setup_temporary Sample.mode "/tmp" (fun n => n) None false Sample.heap
              (inr tt) Sample.temporary Hgiven Hsetup)
    as (name & Hlen & _ & Hpath & _).
  exists name. split; [exact Hlen | exact Hpath].
Defined.


Lemma close_twice_witness :
  close Sample.closed = (inl (FileNotFoundError "/tmp/ws"), Sample.closed).
Proof.
  assert (Hpath : _RUN_PATH (self Sample.staged) = Some "/tmp/ws")
    by (vm_compute; reflexivity).
  assert (Hplace : resolve (pwd (os Sample.staged)) "/tmp/ws" <> [])
    by (vm_compute; discriminate).
  assert (Hclose : close Sample.staged = (inr tt, Sample.closed))
    by (vm_compute; reflexivity).
  exact (close_twice Sample.staged "/tmp/ws" Sample.closed Hpath Hplace Hclose).
Defined.

Lemma run_unknown_cultivar_witness :
  @run Sample.mode Sample.write_management Sample.write_crop Sample.write_soil
       Sample.write_weather (Sample.engine 0) Sample.parse Sample.soil Sample.weather
       Sample.unknown Sample.staged
  = (inl (KeyError (cultivar (management Sample.cleaned))),
     mkHeap (self Sample.cleaned)
            (set_cultivars "CR" (VStr (CODE Sample.unknown)) (management Sample.cleaned))
            (os Sample.cleaned)).
Proof.
  assert (Hflag : _SETUP (self Sample.staged) = true) by (vm_compute; reflexivity).
  assert (Hrm : remove_previous_outputs Sample.staged = (inr tt, Sample.cleaned))
    by (vm_compute; reflexivity).
  assert (Hnone : crop_cultivar Sample.unknown !! cultivar (management Sample.cleaned) = None)
    by (vm_compute; reflexivity).
  exact (@run_unknown_cultivar Sample.mode Sample.write_management Sample.write_crop
           Sample.write_soil Sample.write_weather (Sample.engine 0) Sample.parse
           Sample.soil Sample.weather Sample.unknown Sample.staged Sample.cleaned
           Hflag Hrm Hnone).
Defined.


Lemma run_directory_named_output_witness :
  exists d' h1,
    is_output d' = true
    /\ remove_previous_outputs Sample.cluttered
       = (inl (IsADirectoryError (path_join "/tmp/ws" d')), h1).
Proof.
  assert (Hflag : _SETUP (self Sample.cluttered) = true) by (vm_compute; reflexivity).
  assert (Hpath : _RUN_PATH (self Sample.cluttered) = Some "/tmp/ws")
    by (vm_compute; reflexivity).
  assert (Hwf : wf_files (files (os Sample.cluttered)))
    by (refine (bool_decide_unpack _ _); vm_compute; exact I).
  assert (Hstat : stat (os Sample.cluttered) "/tmp/ws" = Some Dir)
    by (vm_compute; reflexivity).
  assert (Hout : is_output "OLD.OUT" = true) by (vm_compute; reflexivity).
  assert (Hdir : files (os Sample.cluttered)
                   !! (resolve (pwd (os Sample.cluttered)) "/tmp/ws" ++ ["OLD.OUT"])
                 = Some Dir)
    by (vm_compute; reflexivity).
  destruct (@run_directory_named_output Sample.mode Sample.write_management
              Sample.write_crop Sample.write_soil Sample.write_weather (Sample.engine 0)
              Sample.parse Sample.soil Sample.weather Sample.crop Sample.cluttered
              "/tmp/ws" "OLD.OUT" Hflag Hpath Hwf Hstat Hout Hdir)
    as (d' & h1 & Hd' & _ & _ & Hrm & _).
  exists d', h1. split; [exact Hd' | exact Hrm].
Defined.

Lemma write_inputs_returns_witness :
  "/tmp/ws/DPOE2301.MZX"
  = path_join "/tmp/ws" (management_name Sample.weather Sample.crop (management Sample.filled)).
Proof.
  assert (Hpath : _RUN_PATH (self Sample.filled) = Some "/tmp/ws")
    by (vm_compute; reflexivity).
  assert (Hwrite : @write_inputs Sample.mode Sample.write_management Sample.write_crop
                     Sample.write_soil Sample.write_weather Sample.soil Sample.weather
                     Sample.crop Sample.filled
                   = (inr "/tmp/ws/DPOE2301.MZX", Sample.written))
    by (vm_compute; reflexivity).
  pose proof (@write_inputs_returns Sample.mode Sample.write_management Sample.write_crop
                Sample.write_soil Sample.write_weather (Sample.engine 0) Sample.soil
                Sample.weather Sample.crop Sample.filled "/tmp/ws" "/tmp/ws/DPOE2301.MZX"
                Sample.written Hpath Hwrite) as H.
  cbv zeta in H. destruct H as (Hname & _). exact Hname.
Defined.

Lemma run_stores_outputs_witness :
  exists read,
    read.*1 = OUTPUT_LIST (self Sample.staged)
    /\ output (self Sample.ran) = stored read (output (self Sample.staged)).
Proof.
  assert (Hrun : @run Sample.mode Sample.write_management Sample.write_crop
                   Sample.write_soil Sample.write_weather (Sample.engine 0) Sample.parse
                   Sample.soil Sample.weather Sample.crop Sample.staged
                 = (inr tt, Sample.ran))
    by (vm_compute; reflexivity).
  destruct (@run_stores_outputs Sample.mode Sample.write_management Sample.write_crop
              Sample.write_soil Sample.write_weather (Sample.engine 0) Sample.parse
              Sample.soil Sample.weather Sample.crop Sample.staged (inr tt) Sample.ran Hrun)
    as (read & _ & Hstored & Hall & _).
  exists read. split; [exact (Hall eq_refl) | exact Hstored].
Defined.

Lemma reconstruct_index_reads_sum_witness :
  reconstruct_index Sample.frame
  = inr (mkFrame (df_columns Sample.frame)
           (DatetimeIndex
              (zip_with (fun y d => date_of_julian (century ((y + d) / 1000))
                                                   ((y + d) mod 1000)) [23] [45]))).
Proof.
  assert (Hy : column_named "@YEAR" Sample.frame = Some (IntCol [23])) by reflexivity.
  assert (Hd : column_named "DOY" Sample.frame = Some (IntCol [45])) by reflexivity.
  assert (Hrows : forall (i : nat) (y d : Z), [23] !! i = Some y -> [45] !! i = Some d ->
                    0 <= y + d < 100000 /\ 1 <= (y + d) mod 1000 <= 366).
  { intros [|i] y d; simpl; [| done]. intros [= <-] [= <-]. split; [lia |].
    change ((23 + 45) mod 1000) with 68. lia. }
  exact (reconstruct_index_reads_sum Sample.frame [23] [45] Hy Hd Hrows).
Defined.

Lemma reconstruct_index_rejects_witness :
  returned (reconstruct_index Sample.late) = false.
Proof.
  assert (Hy : column_named "@YEAR" Sample.late = Some (IntCol [2023])) by reflexivity.
  assert (Hd : column_named "DOY" Sample.late = Some (IntCol [350])) by reflexivity.
  assert (Hyi : [2023] !! 0%nat = Some 2023) by reflexivity.
  assert (Hdi : [350] !! 0%nat = Some 350) by reflexivity.
  assert (Hsum : 0 <= 2023 + 350 < 100000) by lia.
  assert (Hday : ~ 1 <= (2023 + 350) mod 1000 <= 366)
    by (change ((2023 + 350) mod 1000) with 373; lia).
  exact (reconstruct_index_rejects Sample.late [2023] [350] 0%nat 2023 350
           Hy Hd Hyi Hdi Hsum Hday).
Defined.
